(** * LogProgress: the entry store, the week window and the aggregations

    A shallow embedding of [main.py] (a Streamlit form and dashboard over a
    CSV log of practice sessions) and the properties of its store and of its
    aggregation layer.

    Modelling conventions.
    - A [pandas.DataFrame] is the list of its rows, in index order; a row is
      a record with one field per CSV column.
    - A cell of a text column is [NaN] (pandas' missing value) or [Str s].
    - [Hours Practiced] is a binary64 number in the program. It is modelled
      by the rational it denotes ([Qc]); sums are exact, and so is the
      passage of a number through its decimal text in the file.
    - A [pandas.Timestamp] is its integer number of nanoseconds since
      1970-01-01T00:00:00; a calendar date is its number of days since
      1970-01-01.
    - [pd.Timestamp.now()], [st.session_state] and the content of the
      backing file are made explicit arguments and results.
    - What the specification calls [append] is the handler of the submit
      button followed by [save_entry]; [load] is [load_data]. *)

From Stdlib Require Import ZArith QArith Qcanon Ascii String List Lia.
From stdpp Require Import base numbers list strings gmap sorting.

Local Open Scope string_scope.
Local Open Scope list_scope.
Local Open Scope Z_scope.

(** ** Calendar *)

Module Calendar.

Definition NS_PER_SECOND : Z := 1000000000.
Definition NS_PER_DAY : Z := 86400 * NS_PER_SECOND.

(** Days since 1970-01-01 of the proleptic Gregorian date [y]-[m]-[d]
    (what [datetime.date(y, m, d)] denotes). *)
Definition days_from_civil (y m d : Z) : Z :=
  let y' := if m <=? 2 then y - 1 else y in
  let era := y' `div` 400 in
  let yoe := y' - era * 400 in
  let mp := if m >? 2 then m - 3 else m + 9 in
  let doy := (153 * mp + 2) `div` 5 + d - 1 in
  let doe := yoe * 365 + yoe `div` 4 - yoe `div` 100 + doy in
  era * 146097 + doe - 719468.

(** The proleptic Gregorian (year, month, day) of a day number. *)
Definition civil_from_days (z : Z) : Z * Z * Z :=
  let z' := z + 719468 in
  let era := z' `div` 146097 in
  let doe := z' - era * 146097 in
  let yoe := (doe - doe `div` 1460 + doe `div` 36524 - doe `div` 146096) `div` 365 in
  let doy := doe - (365 * yoe + yoe `div` 4 - yoe `div` 100) in
  let mp := (5 * doy + 2) `div` 153 in
  let d := doy - (153 * mp + 2) `div` 5 + 1 in
  let m := if mp <? 10 then mp + 3 else mp - 9 in
  let y := yoe + era * 400 in
  (if m <=? 2 then y + 1 else y, m, d).

(** [pandas.Timestamp]: nanoseconds since the epoch. *)
Definition Timestamp : Type := Z.

(** [timedelta(days=n)] *)
Definition timedelta (days : Z) : Z := days * NS_PER_DAY.

(** The calendar day a timestamp falls on, and its time of day. *)
Definition day_of (t : Timestamp) : Z := t `div` NS_PER_DAY.
Definition time_of_day (t : Timestamp) : Z := t `mod` NS_PER_DAY.

(** The timestamp of midnight at the start of a day. *)
Definition midnight (day : Z) : Timestamp := day * NS_PER_DAY.

(** [Timestamp(year, month, day, hour, minute)] *)
Definition at_time (y m d hh mm : Z) : Timestamp :=
  midnight (days_from_civil y m d) + (hh * 3600 + mm * 60) * NS_PER_SECOND.

(** [date.weekday()]: Monday is 0 and Sunday is 6; 1970-01-01 was a
    Thursday. *)
Definition weekday (t : Timestamp) : Z := (day_of t + 3) `mod` 7.

(** The month a timestamp falls in, counted in months since year 0
    (12 * year + month - 1). *)
Definition month_of (t : Timestamp) : Z :=
  let '(y, m, _) := civil_from_days (day_of t) in 12 * y + (m - 1).

End Calendar.
Import Calendar.

(** ** Time-window utilities (main.py, lines 58-62) *)

(** [get_week_range(date)]:
      start = date - timedelta(days=date.weekday())
      end = start + timedelta(days=6) *)
Definition get_week_range (date : Timestamp) : Timestamp * Timestamp :=
  let start := date - timedelta (weekday date) in
  let end_ := start + timedelta 6 in
  (start, end_).

(** ** Data model *)

(** A cell of a text (object) column. *)
Inductive cell : Type :=
| NaN
| Str (s : string).

#[global] Instance cell_eq_dec : EqDecision cell.
Proof. solve_decision. Defined.

(** One row of the table. [T] is the type of the text cells and [D] the
    type of the [Date] cell, which changes along the program: text in the
    file, a timestamp once [pd.to_datetime] has run. *)
Record row (T D : Type) : Type := Row {
  Name : T;
  Date : D;
  Skill_Focus : T;
  Hours_Practiced : Qc;
  Progress_Description : T;
  Challenges_Faced : T;
  Commitment_Check : T;
  Additional_Comments : T
}.
Arguments Row {T D}.
Arguments Name {T D}.
Arguments Date {T D}.
Arguments Skill_Focus {T D}.
Arguments Hours_Practiced {T D}.
Arguments Progress_Description {T D}.
Arguments Challenges_Faced {T D}.
Arguments Commitment_Check {T D}.
Arguments Additional_Comments {T D}.

(** The frame [load_data] returns: text cells, [Date] a timestamp. *)
Definition DataFrame : Type := list (row cell Timestamp).

(** [df['Hours Practiced'].sum()] *)
Definition sum_hours {T D} (df : list (row T D)) : Qc :=
  foldr (fun r acc => (Hours_Practiced r + acc)%Qc) 0%Qc df.

(** A number of hours given as a fraction. *)
Definition hrs (n : Z) (d : positive) : Qc := Q2Qc (n # d).

(** ** Aggregation: hours of the current week (main.py, lines 64-78) *)

(** The boolean mask
      (df['Name'] == user_name) & (df['Date'] >= week_start) & (df['Date'] <= week_end) *)
Definition weekly_mask (user_name : string) (week_start week_end : Timestamp)
    (r : row cell Timestamp) : bool :=
  bool_decide (Name r = Str user_name)
  && (week_start <=? Date r) && (Date r <=? week_end).

(** [calculate_weekly_hours(df, user_name)], with [today = pd.Timestamp.now()]
    passed as [now]. *)
Definition calculate_weekly_hours (now : Timestamp) (df : DataFrame)
    (user_name : string) : Qc :=
  match df with
  | [] => 0%Qc
  | _ =>
    let today := now in
    let '(week_start, week_end) := get_week_range today in
    let weekly_data := List.filter (weekly_mask user_name week_start week_end) df in
    sum_hours weekly_data
  end.

(** ** Aggregation: the dashboard views (main.py, lines 85, 112, 243, 296-325) *)

(** [Series.unique()]: the distinct values in order of first appearance
    (all missing values count as one). *)
Fixpoint unique {A} `{EqDecision A} (l : list A) : list A :=
  match l with
  | [] => []
  | x :: l' => x :: List.filter (fun y => bool_decide (y <> x)) (unique l')
  end.

(** [user_df = df[df['Name'] == selected_user]] *)
Definition select_user (selected_user : string) (df : DataFrame) : DataFrame :=
  List.filter (fun r => bool_decide (Name r = Str selected_user)) df.

(** One step of a group-by-sum: add [h] to the total of key [k]. *)
Definition add_hours `{Countable K} (k : K) (h : Qc) (m : gmap K Qc) : gmap K Qc :=
  <[k := (h + default 0%Qc (m !! k))%Qc]> m.

(** [user_df.groupby('Skill Focus')['Hours Practiced'].sum()]; [groupby]
    drops the rows whose key is missing. *)
Definition skill_hours (user_df : DataFrame) : gmap string Qc :=
  foldr (fun r m =>
           match Skill_Focus r with
           | Str s => add_hours s (Hours_Practiced r) m
           | NaN => m
           end) ∅ user_df.

(** [user_df.groupby('Date')['Hours Practiced'].sum()] *)
Definition daily_activity (user_df : DataFrame) : gmap Z Qc :=
  foldr (fun r m => add_hours (Date r) (Hours_Practiced r) m) ∅ user_df.

(** The hours logged in month [m]. *)
Definition month_sum (user_df : DataFrame) (m : Z) : Qc :=
  sum_hours (List.filter (fun r => month_of (Date r) =? m) user_df).

(** [user_df.set_index('Date').resample('M')['Hours Practiced'].sum()]:
    one bin per calendar month from the month of the earliest date to the
    month of the latest one, in order, each with the sum of the hours that
    fall in it. A bin is labelled here by its month number (pandas labels it
    by the last day of the month). *)
Definition monthly_hours (user_df : DataFrame) : list (Z * Qc) :=
  match user_df with
  | [] => []
  | r :: _ =>
    let months := map (fun r => month_of (Date r)) user_df in
    let first := foldr Z.min (month_of (Date r)) months in
    let last := foldr Z.max (month_of (Date r)) months in
    map (fun m => (m, month_sum user_df m)) (seqZ first (last - first + 1))
  end.

(** The three metrics: [user_df['Hours Practiced'].sum()], [len(user_df)]
    and [len(user_df['Skill Focus'].unique())]. *)
Definition counts (user_df : DataFrame) : Qc * nat * nat :=
  (sum_hours user_df, length user_df, length (unique (map Skill_Focus user_df))).

(** ** The entry store (main.py, lines 27-56) *)

(** The text of a [Date] cell of the file, in the two layouts the program
    writes: ["%Y-%m-%d"], which [date.strftime] produces for a new entry,
    and ["%Y-%m-%d %H:%M:%S"] (with the fraction of a second when there is
    one), which [to_csv] produces for a [Timestamp] object. The calendar
    date is given by its day number and the time by the nanoseconds since
    midnight. *)
Inductive date_text : Type :=
| DateOnly (day : Z)
| DateTime (day : Z) (ns : Z).

(** A [Date] cell of a frame whose column has object dtype: a string or a
    [Timestamp] object. *)
Inductive date_cell : Type :=
| DText (s : date_text)
| DStamp (t : Timestamp).

(** The backing file [CSV_PATH]: missing, unreadable or malformed, or a
    header line followed by records. A record is given cell by cell (the
    quoting of the CSV layer is not modelled); [Hours Practiced] holds a
    number. The text columns are taken to be columns that [read_csv] loads
    with object dtype: a file in which every cell of a text column reads as a
    number or as a boolean is outside the model. *)
Inductive backing_file : Type :=
| Unreadable
| Csv (records : list (row string date_text)).

Definition entry_count (fs : backing_file) : nat :=
  match fs with
  | Unreadable => 0%nat
  | Csv records => length records
  end.

(** The strings [read_csv] takes for a missing value (the default
    [na_values] of pandas 2). *)
Definition na_values : list string :=
  [ ""; "#N/A"; "#N/A N/A"; "#NA"; "-1.#IND"; "-1.#QNAN"; "-NaN"; "-nan";
    "1.#IND"; "1.#QNAN"; "<NA>"; "N/A"; "NA"; "NULL"; "NaN"; "None"; "n/a";
    "nan"; "null" ].

(** What [read_csv] returns for a cell of an object column. *)
Definition read_text (s : string) : cell :=
  if bool_decide (s ∈ na_values) then NaN else Str s.

(** What [to_csv] writes for a cell of an object column (nothing for a
    missing value). *)
Definition write_text (c : cell) : string :=
  match c with
  | NaN => ""
  | Str s => s
  end.

(** What [to_csv] writes for a [Date] cell: a string as it is, a
    [Timestamp] object through [str]. *)
Definition write_date (d : date_cell) : date_text :=
  match d with
  | DText s => s
  | DStamp t => DateTime (day_of t) (time_of_day t)
  end.

(** Changing the cells of a row. *)
Definition map_row {T T' D D'} (f : T -> T') (g : D -> D') (r : row T D) : row T' D' :=
  Row (f (Name r)) (g (Date r)) (f (Skill_Focus r)) (Hours_Practiced r)
      (f (Progress_Description r)) (f (Challenges_Faced r))
      (f (Commitment_Check r)) (f (Additional_Comments r)).

(** [pd.read_csv(CSV_PATH)]; [None] when it raises. *)
Definition read_csv (fs : backing_file) : option (list (row cell date_text)) :=
  match fs with
  | Unreadable => None
  | Csv records => Some (map (map_row read_text id) records)
  end.

(** [df.to_csv(CSV_PATH, index=False)] *)
Definition to_csv (df : list (row cell date_cell)) : backing_file :=
  Csv (map (map_row write_text write_date) df).

(** How [pd.to_datetime] treats a column of strings. Up to pandas 1.5 each
    string is parsed on its own; from pandas 2.0 the format is inferred from
    the first string and a later string that does not follow it raises. *)
Inductive datetime_parsing : Type :=
| PerElement
| InferredFormat.

Definition parse_date (s : date_text) : option Timestamp :=
  match s with
  | DateOnly day => Some (midnight day)
  | DateTime day ns =>
    if (0 <=? ns) && (ns <? NS_PER_DAY) then Some (midnight day + ns) else None
  end.

Definition same_format (a b : date_text) : bool :=
  match a, b with
  | DateOnly _, DateOnly _ => true
  | DateTime _ _, DateTime _ _ => true
  | _, _ => false
  end.

(** [pd.to_datetime(column)]; [None] when it raises. *)
Definition to_datetime (mode : datetime_parsing) (column : list date_text)
    : option (list Timestamp) :=
  match mode, column with
  | InferredFormat, first :: rest =>
    if forallb (same_format first) rest then mapM parse_date column else None
  | _, _ => mapM parse_date column
  end.

(** [df['Date'] = column] *)
Definition set_Date {T D D'} (df : list (row T D)) (column : list D') : list (row T D') :=
  zip_with (fun r d => map_row id (fun _ => d) r) df column.

Definition as_str (c : cell) : option string :=
  match c with
  | Str s => Some s
  | NaN => None
  end.

(** [sorted(names)] on a list of distinct cells; [None] when it raises.
    Strings compare by code point, which is the byte order of their UTF-8
    text; comparing a string with the float [nan] raises [TypeError], and a
    list of fewer than two elements is returned without any comparison. *)
Definition sorted (names : list cell) : option (list cell) :=
  match names with
  | [] | [_] => Some names
  | _ => strs ← mapM as_str names; Some (Str <$> merge_sort String.le strs)
  end.

(** [st.session_state] *)
Record session_state : Type := SessionState {
  success_message : bool;
  names_list : list cell
}.

(** [load_data()]: the frame it returns and the session state it leaves.
    Every exception is caught and an empty frame returned. *)
Definition load_data (mode : datetime_parsing) (fs : backing_file)
    (ss : session_state) : DataFrame * session_state :=
  match read_csv fs with
  | None => ([], ss)
  | Some [] => ([], ss)
  | Some df =>
    match to_datetime mode (map Date df) with
    | None => ([], ss)
    | Some column =>
      let df := set_Date df column in
      match sorted (unique (map Name df)) with
      | None => ([], ss)
      | Some names => (df, SessionState (success_message ss) names)
      end
    end
  end.

(** How a run of the form handler ends. *)
Inductive outcome : Type :=
| Logged
| ValidationError
| TypeError.

(** [save_entry(entry_data)]: the file and the session state it leaves.
    The file is written before the names are sorted, so it stays written
    when [sorted] raises. *)
Definition save_entry (mode : datetime_parsing) (entry_data : row cell date_cell)
    (fs : backing_file) (ss : session_state)
    : backing_file * session_state * outcome :=
  let '(df, ss) := load_data mode fs ss in
  let new_entry := [entry_data] in
  let updated_df := new_entry ++ map (map_row id DStamp) df in
  let fs := to_csv updated_df in
  match sorted (unique (map Name updated_df)) with
  | None => (fs, ss, TypeError)
  | Some names => (fs, SessionState (success_message ss) names, Logged)
  end.

(** The values of the widgets of the form when it is submitted. [date] is
    [None] when no date is given. *)
Module Form.
Record t : Type := Make {
  name : string;
  date : option Z;
  skill_focus : string;
  hours : Qc;
  progress_description : string;
  challenges : string;
  commitment : string;
  comments : string
}.
End Form.

(** Truth value of a [str] and of a [float] in Python. *)
Definition truthy_str (s : string) : bool := negb (bool_decide (s = "")).
Definition truthy_float (x : Qc) : bool := negb (bool_decide (x = 0%Qc)).

(** [all([name, date, skill_focus, hours, progress_description, commitment])] *)
Definition all_required (f : Form.t) : bool :=
  forallb id
    [ truthy_str (Form.name f); bool_decide (is_Some (Form.date f));
      truthy_str (Form.skill_focus f); truthy_float (Form.hours f);
      truthy_str (Form.progress_description f); truthy_str (Form.commitment f) ].

(** The dictionary [entry_data] built from the form; the date is written
    with [strftime('%Y-%m-%d')]. *)
Definition entry_data_of (f : Form.t) (day : Z) : row cell date_cell :=
  Row (Str (Form.name f)) (DText (DateOnly day)) (Str (Form.skill_focus f))
      (Form.hours f) (Str (Form.progress_description f))
      (Str (Form.challenges f)) (Str (Form.commitment f))
      (Str (Form.comments f)).

(** The handler of the submit button (lines 205-224). When a required
    field is not truthy, [st.error] is called and nothing else happens. A
    missing date is not truthy, so the branch that formats the date always
    has one. *)
Definition submit (mode : datetime_parsing) (f : Form.t)
    (fs : backing_file) (ss : session_state)
    : backing_file * session_state * outcome :=
  if negb (all_required f) then (fs, ss, ValidationError)
  else
    match Form.date f with
    | None => (fs, ss, ValidationError)
    | Some day =>
      match save_entry mode (entry_data_of f day) fs ss with
      | (fs, ss, Logged) => (fs, SessionState true (names_list ss), Logged)
      | failed => failed
      end
    end.

(** The range the widget of [Hours Practiced] accepts
    ([min_value=0.0, max_value=24.0]). *)
Definition hours_in_range (x : Qc) : Prop := (0 <= x)%Qc /\ (x <= hrs 24 1)%Qc.

(** The same aggregation as the specification words it: the entries of
    [user_name] whose calendar date lies between the Monday and the Sunday
    of the week containing [now], both included. *)
Definition week_monday (now : Timestamp) : Z := day_of now - weekday now.

Definition in_calendar_week (now : Timestamp) (t : Timestamp) : bool :=
  (week_monday now <=? day_of t) && (day_of t <=? week_monday now + 6).

Definition weekly_hours_spec (now : Timestamp) (df : DataFrame)
    (user_name : string) : Qc :=
  sum_hours (List.filter
    (fun r => bool_decide (Name r = Str user_name) && in_calendar_week now (Date r)) df).

(** The scenario of the specification: two sessions of Ava, on Monday
    2024-03-04 and on Tuesday 2024-03-05. *)
Definition session (name : string) (y m d : Z) (skill : string) (h : Qc)
    : row cell Timestamp :=
  Row (Str name) (at_time y m d 0 0) (Str skill) h (Str "practiced") NaN
      (Str "Good - Met Goals") NaN.

Definition ava_week : DataFrame :=
  [ session "Ava" 2024 3 5 "Guitar" (hrs 3 2);
    session "Ava" 2024 3 4 "Guitar" (hrs 2 1) ].

(** ** What the specification says of the known names *)





(** ** What the specification says of a stored entry *)







(** The entry as it is loaded: an optional field that was left empty is a
    missing value. *)
Definition optional_cell (s : string) : cell :=
  if bool_decide (s = "") then NaN else Str s.

Definition loaded_entry (f : Form.t) (day : Z) : row cell Timestamp :=
  Row (Str (Form.name f)) (midnight day) (Str (Form.skill_focus f))
      (Form.hours f) (Str (Form.progress_description f))
      (optional_cell (Form.challenges f)) (Str (Form.commitment f))
      (optional_cell (Form.comments f)).


(** The first submission of the scenario of the specification, made on a
    store that holds no entry yet. *)
Definition ava_monday : Form.t :=
  Form.Make "Ava" (Some (days_from_civil 2024 3 4)) "Guitar" (hrs 2 1)
            "practiced scales" "" "Good - Met Goals" "".

Definition ava_tuesday : Form.t :=
  Form.Make "Ava" (Some (days_from_civil 2024 3 5)) "Guitar" (hrs 3 2)
            "chords" "tuning issues" "Fair - Partial Progress" "".

Definition fresh_session : session_state := SessionState false [].

(** ** Auxiliary notions of the statements *)


(** The statement that only months holding an entry get a bucket. *)
Definition only_months_with_entries (df : DataFrame) : Prop :=
  forall m h, (m, h) ∈ monthly_hours df -> exists r, r ∈ df /\ month_of (Date r) = m.

(** Sessions in January and in March 2024, none in February. *)
Definition jan_mar : DataFrame :=
  [ session "Ava" 2024 3 2 "Guitar" (hrs 3 2);
    session "Ava" 2024 1 15 "Guitar" (hrs 2 1) ].


(** ** The charts and the script around the store (main.py, lines 17-35,
    80-104, 158-159, 226-243) *)

(** The hours of the rows of one skill, and of one date. *)
Definition skill_sum (df : DataFrame) (s : string) : Qc :=
  sum_hours (List.filter (fun r => bool_decide (Skill_Focus r = Str s)) df).

Definition date_sum (df : DataFrame) (t : Timestamp) : Qc :=
  sum_hours (List.filter (fun r => Date r =? t) df).

(** The index and the values of the series a group-by returns: the keys in
    sorted order, each with its total. *)
Definition series_index (m : gmap string Qc) : list string :=
  merge_sort String.le (elements (dom m)).

Definition series_values (m : gmap string Qc) : list Qc :=
  map (fun k => default 0%Qc (m !! k)) (series_index m).

(** [max(values)]: the largest element, the first one among equals; it
    raises [ValueError] on an empty sequence. *)
Definition Qc_max (a b : Qc) : Qc := if decide (a < b)%Qc then b else a.

Definition py_max (values : list Qc) : option Qc :=
  match values with
  | [] => None
  | x :: rest => Some (fold_left Qc_max rest x)
  end.

(** The binary64 number that the literal [1.2] denotes. *)
Definition float_1_2 : Qc := Q2Qc (5404319552844595 # 4503599627370496).

(** What a call gives: [None], an uncaught [ValueError], or a value. *)
Inductive returned (A : Type) : Type :=
| ReturnsNone
| RaisesValueError
| Returns (a : A).
Arguments ReturnsNone {A}.
Arguments RaisesValueError {A}.
Arguments Returns {A}.

(** The data of the radar figure: the trace [r], [theta] and the range of
    the radial axis. *)
Module Radar.
Record figure : Type := Figure {
  r : list Qc;
  theta : list string;
  radialaxis_range : Qc * Qc
}.
End Radar.

(** [create_skill_radar_chart(user_df)] *)
Definition create_skill_radar_chart (user_df : DataFrame) : returned Radar.figure :=
  match user_df with
  | [] => ReturnsNone
  | _ =>
    let skill_hours := skill_hours user_df in
    match py_max (series_values skill_hours) with
    | None => RaisesValueError
    | Some largest =>
      Returns (Radar.Figure (series_values skill_hours) (series_index skill_hours)
                            (0%Qc, (largest * float_1_2)%Qc))
    end
  end.


(** A record of the file as a row of the loaded frame: the text cells read,
    the date parsed (the epoch stands for a date that does not parse). *)
Definition load_row (record : row string date_text) : row cell Timestamp :=
  map_row read_text (fun d => default 0 (parse_date d)) record.

(** The sum of the values of a series. *)
Definition series_total {K} (series : list (K * Qc)) : Qc :=
  foldr (fun p acc => (snd p + acc)%Qc) 0%Qc series.







(** ** The activity heatmap (main.py, lines 106-138) *)

(** [Series.dt.day_name()] *)
Definition day_names : list string :=
  ["Monday"; "Tuesday"; "Wednesday"; "Thursday"; "Friday"; "Saturday"; "Sunday"].

Definition day_name (t : Timestamp) : string :=
  default "" (day_names !! Z.to_nat (weekday t)).

(** The Monday that starts week 1 of the ISO year: the week of the first of
    January when that day is a Thursday or before, the week after
    otherwise. *)
Definition iso_week1_monday (year : Z) : Z :=
  let first_day := days_from_civil year 1 1 in
  let first_weekday := (first_day + 3) `mod` 7 in
  let week1_monday := first_day - first_weekday in
  if 3 <? first_weekday then week1_monday + 7 else week1_monday.

(** [Series.dt.isocalendar().week]: the ISO 8601 week number of a date. *)
Definition iso_week (t : Timestamp) : Z :=
  let today := day_of t in
  let year := fst (fst (civil_from_days today)) in
  let week := (today - iso_week1_monday year) `div` 7 in
  if week <? 0 then (today - iso_week1_monday (year - 1)) `div` 7 + 1
  else if (52 <=? week) && (iso_week1_monday (year + 1) <=? today) then 1
  else week + 1.

(** The hours of the rows that fall in one cell of the heatmap. *)
Definition cell_sum (df : DataFrame) (week : Z) (name : string) : Qc :=
  sum_hours (List.filter
    (fun r => bool_decide ((iso_week (Date r), day_name (Date r)) = (week, name))) df).

(** [daily_activity.pivot_table(values='Hours Practiced', index='Week',
    columns='WeekDay', aggfunc='sum')], from the daily totals with their
    [Week] and [WeekDay]: one cell per pair that occurs, with the sum of the
    daily totals of the pair. *)
Definition heatmap_data (user_df : DataFrame) : gmap (Z * string) Qc :=
  foldr (fun p m => add_hours (iso_week (fst p), day_name (fst p)) (snd p) m) ∅
        (map_to_list (daily_activity user_df)).

(** The data of the heatmap figure: the columns [x], the index [y] and the
    matrix [z], in which a cell without value is [None]. *)
Module Heatmap.
Record figure : Type := Figure {
  x : list string;
  y : list Z;
  z : list (list (option Qc))
}.
End Heatmap.

(** [create_activity_heatmap(user_df)]: the index and the columns of a
    pivot table are sorted. *)
Definition create_activity_heatmap (user_df : DataFrame) : option Heatmap.figure :=
  match user_df with
  | [] => None
  | _ =>
    let heatmap_data := heatmap_data user_df in
    let keys := elements (dom heatmap_data) in
    let index := merge_sort Z.le (unique (map fst keys)) in
    let columns := merge_sort String.le (unique (map snd keys)) in
    Some (Heatmap.Figure columns index
            (map (fun week => map (fun name => heatmap_data !! (week, name)) columns)
                 index))
  end.

(** * Properties *)

(** ** The week window *)

Lemma NS_PER_DAY_pos : 0 < NS_PER_DAY.
Proof. reflexivity. Qed.

Lemma day_of_shift (t k : Z) : day_of (t + timedelta k) = day_of t + k.
Proof. unfold day_of, timedelta. apply Z.div_add. discriminate. Qed.

Lemma time_of_day_shift (t k : Z) : time_of_day (t + timedelta k) = time_of_day t.
Proof. unfold time_of_day, timedelta. apply Z.mod_add. discriminate. Qed.

Lemma timedelta_opp (k : Z) : - timedelta k = timedelta (- k).
Proof. unfold timedelta. ring. Qed.

Lemma day_time_split (t : Timestamp) : t = midnight (day_of t) + time_of_day t.
Proof.
  unfold midnight, day_of, time_of_day.
  rewrite Z.mul_comm. apply Z.div_mod. discriminate.
Qed.

Lemma time_of_day_range (t : Timestamp) : 0 <= time_of_day t < NS_PER_DAY.
Proof. apply Z.mod_pos_bound, NS_PER_DAY_pos. Qed.

Lemma weekday_range (t : Timestamp) : 0 <= weekday t <= 6.
Proof. unfold weekday. pose proof (Z.mod_pos_bound (day_of t + 3) 7). lia. Qed.

Lemma week_start_day (t : Timestamp) :
  day_of (fst (get_week_range t)) = week_monday t.
Proof.
  unfold get_week_range, week_monday. simpl.
  replace (t - timedelta (weekday t)) with (t + timedelta (- weekday t))
    by (rewrite <- timedelta_opp; lia).
  rewrite day_of_shift. lia.
Qed.

(** C5. [get_week_range] is a function of its argument alone; the start it
    returns falls on a Monday, the end is six days later and falls on a
    Sunday, the instant lies in the seven days that begin on that Monday,
    and this holds for every instant. Start and end keep the time of day of
    the instant. *)
Theorem get_week_range_monday_to_sunday (t : Timestamp) :
  let '(week_start, week_end) := get_week_range t in
  weekday week_start = 0
  /\ weekday week_end = 6
  /\ week_end = week_start + timedelta 6
  /\ day_of week_end = day_of week_start + 6
  /\ day_of week_start <= day_of t <= day_of week_end
  /\ time_of_day week_start = time_of_day t
  /\ time_of_day week_end = time_of_day t.
Proof.
  pose proof (week_start_day t) as Hs.
  unfold get_week_range in *. simpl in Hs.
  set (s := t - timedelta (weekday t)) in *.
  assert (Ht : time_of_day s = time_of_day t).
  { unfold s. replace (t - timedelta (weekday t))
      with (t + timedelta (- weekday t)) by (rewrite <- timedelta_opp; lia).
    apply time_of_day_shift. }
  pose proof (weekday_range t) as Hr.
  assert (Hw : weekday s = 0).
  { unfold weekday at 1. rewrite Hs. unfold week_monday, weekday.
    pose proof (Z.mod_pos_bound (day_of t + 3) 7).
    pose proof (Z.div_mod (day_of t + 3) 7).
    replace (day_of t - (day_of t + 3) `mod` 7 + 3)
      with (0 + ((day_of t + 3) `div` 7) * 7) by lia.
    rewrite Z.mod_add by discriminate. reflexivity. }
  repeat split.
  - exact Hw.
  - unfold weekday in *. rewrite day_of_shift.
    replace (day_of s + 6 + 3) with (day_of s + 3 + 6) by lia.
    rewrite <- Zplus_mod_idemp_l, Hw. reflexivity.
  - apply day_of_shift.
  - rewrite Hs. unfold week_monday. lia.
  - rewrite day_of_shift, Hs. unfold week_monday. lia.
  - exact Ht.
  - rewrite time_of_day_shift. exact Ht.
Qed.

(** ** Hours of the current week *)

Ltac qc_eval := apply Qc_is_canon; vm_compute; reflexivity.


(** The guard on the empty frame returns what the sum would. *)
Lemma calculate_weekly_hours_filter (now : Timestamp) (df : DataFrame) (name : string) :
  calculate_weekly_hours now df name =
  sum_hours (List.filter
    (weekly_mask name (fst (get_week_range now)) (snd (get_week_range now))) df).
Proof. destruct df; reflexivity. Qed.

Lemma week_range_shape (t : Timestamp) :
  time_of_day (fst (get_week_range t)) = time_of_day t
  /\ day_of (snd (get_week_range t)) = day_of (fst (get_week_range t)) + 6.
Proof.
  unfold get_week_range. cbn [fst snd]. split.
  - replace (t - timedelta (weekday t)) with (t + timedelta (- weekday t))
      by (rewrite <- timedelta_opp; lia).
    apply time_of_day_shift.
  - apply day_of_shift.
Qed.

(** The window the code compares against starts on Monday at the time of
    day of [now], not at midnight. *)
Lemma week_start_split (now : Timestamp) :
  fst (get_week_range now) = midnight (week_monday now) + time_of_day now.
Proof.
  pose proof (week_range_shape now) as [Ht _].
  pose proof (week_start_day now) as Hd.
  destruct (get_week_range now) as [s e]. simpl in *.
  rewrite (day_time_split s), Hd, Ht. reflexivity.
Qed.

(** Whenever [now] is not exactly midnight, a session dated on the Monday
    of the current week (dates are stored at midnight) is left out. *)
Lemma monday_session_left_out (now : Timestamp) (name : string) (r : row cell Timestamp) :
  0 < time_of_day now ->
  Date r = midnight (week_monday now) ->
  weekly_mask name (fst (get_week_range now)) (snd (get_week_range now)) r = false.
Proof.
  intros Hpos Hd. unfold weekly_mask.
  rewrite week_start_split, Hd.
  replace (midnight (week_monday now) + time_of_day now <=? midnight (week_monday now))
    with false by (symmetry; apply Z.leb_gt; lia).
  by rewrite andb_false_r.
Qed.

Lemma midnight_le (a b : Z) : midnight a <= midnight b <-> a <= b.
Proof.
  unfold midnight. split; intros H.
  - apply Z.mul_le_mono_pos_r in H; [done | apply NS_PER_DAY_pos].
  - apply Z.mul_le_mono_nonneg_r; [| done]. pose proof NS_PER_DAY_pos. lia.
Qed.

Lemma midnight_day_of (t : Timestamp) : time_of_day t = 0 -> t = midnight (day_of t).
Proof. intros H. rewrite (day_time_split t) at 1. rewrite H. lia. Qed.

(** The code and the Monday-to-Sunday sum agree when [now] is exactly
    midnight and the sessions are dated at midnight, as the form dates
    them. *)
Lemma weekly_hours_agree_at_midnight (now : Timestamp) (df : DataFrame) (name : string) :
  time_of_day now = 0 ->
  Forall (fun r => time_of_day (Date r) = 0) df ->
  calculate_weekly_hours now df name = weekly_hours_spec now df name.
Proof.
  intros Hnow Hdf. rewrite calculate_weekly_hours_filter.
  unfold weekly_hours_spec. f_equal. apply filter_ext_in. intros r Hr.
  rewrite Forall_forall in Hdf.
  assert (Hd : Date r = midnight (day_of (Date r))).
  { apply midnight_day_of, Hdf. by apply list_elem_of_In. }
  unfold weekly_mask, in_calendar_week. rewrite <- andb_assoc. f_equal.
  assert (Hend : snd (get_week_range now) = fst (get_week_range now) + timedelta 6)
    by reflexivity.
  rewrite Hend, week_start_split, Hnow, Z.add_0_r.
  change (timedelta 6) with (midnight 6).
  replace (midnight (week_monday now) + midnight 6)
    with (midnight (week_monday now + 6)) by (unfold midnight; lia).
  rewrite Hd at 1 2.
  apply eq_true_iff_eq. rewrite !andb_true_iff, !Z.leb_le, !midnight_le. tauto.
Qed.

(** C1. On the scenario of the specification the code does not return 3.5:
    at noon of Wednesday 2024-03-06 the session of Monday 2024-03-04 is left
    out and the result is 1.5, where the sum over the Monday-to-Sunday week
    is 3.5. The two agree only when [now] is exactly midnight. *)
Theorem weekly_hours_misses_monday_session :
  calculate_weekly_hours (at_time 2024 3 6 12 0) ava_week "Ava" = hrs 3 2
  /\ weekly_hours_spec (at_time 2024 3 6 12 0) ava_week "Ava" = hrs 7 2
  /\ calculate_weekly_hours (at_time 2024 3 6 0 0) ava_week "Ava" = hrs 7 2.
Proof. repeat split; qc_eval. Qed.






(** ** Monthly totals *)

Example monthly_hours_jan_mar :
  monthly_hours jan_mar = [(24288, hrs 2 1); (24289, 0%Qc); (24290, hrs 3 2)].
Proof.
  vm_compute. repeat f_equal; apply Qc_is_canon; reflexivity.
Qed.

(** C2, as stated, fails: February 2024, which has no entry, gets a bucket
    (of zero hours) between January and March. *)
Lemma monthly_hours_synthesizes_empty_month : ~ only_months_with_entries jan_mar.
Proof.
  intros H. destruct (H 24289 0%Qc) as (r & Hr & Hm).
  - rewrite monthly_hours_jan_mar. set_solver.
  - unfold jan_mar in Hr. set_unfold in Hr.
    destruct Hr as [-> | [-> | []]]; vm_compute in Hm; discriminate.
Qed.

Lemma foldr_min_le (x0 : Z) (l : list Z) :
  foldr Z.min x0 l <= x0 /\ forall x, x ∈ l -> foldr Z.min x0 l <= x.
Proof.
  induction l as [|y l [IH0 IH]]; simpl.
  - split; [lia | set_solver].
  - split; [lia |]. intros x Hx. set_unfold in Hx. destruct Hx as [-> | Hx].
    + lia.
    + specialize (IH x Hx). lia.
Qed.

Lemma foldr_max_ge (x0 : Z) (l : list Z) :
  x0 <= foldr Z.max x0 l /\ forall x, x ∈ l -> x <= foldr Z.max x0 l.
Proof.
  induction l as [|y l [IH0 IH]]; simpl.
  - split; [lia | set_solver].
  - split; [lia |]. intros x Hx. set_unfold in Hx. destruct Hx as [-> | Hx].
    + lia.
    + specialize (IH x Hx). lia.
Qed.

Lemma foldr_min_elem (x0 : Z) (l : list Z) :
  foldr Z.min x0 l = x0 \/ foldr Z.min x0 l ∈ l.
Proof.
  induction l as [|y l IH]; simpl; [by left |].
  destruct (Z.min_spec y (foldr Z.min x0 l)) as [[_ ->] | [_ ->]].
  - right. apply elem_of_cons. by left.
  - destruct IH; [by left | right; apply elem_of_cons; by right].
Qed.

Lemma foldr_max_elem (x0 : Z) (l : list Z) :
  foldr Z.max x0 l = x0 \/ foldr Z.max x0 l ∈ l.
Proof.
  induction l as [|y l IH]; simpl; [by left |].
  destruct (Z.max_spec y (foldr Z.max x0 l)) as [[_ ->] | [_ ->]].
  - destruct IH; [by left | right; apply elem_of_cons; by right].
  - right. apply elem_of_cons. by left.
Qed.

Lemma month_sum_no_entry (df : DataFrame) (m : Z) :
  (forall r, r ∈ df -> month_of (Date r) <> m) -> month_sum df m = 0%Qc.
Proof.
  unfold month_sum. induction df as [|r df IH]; intros H; simpl; [done |].
  destruct (month_of (Date r) =? m) eqn:E.
  - apply Z.eqb_eq in E. exfalso. apply (H r); [set_solver | done].
  - apply IH. intros r' Hr'. apply H. set_solver.
Qed.

(** C2, amended. The monthly totals hold one bucket for every calendar
    month from the month of the earliest entry to the month of the latest
    one, and no other; the bucket of a month holds the sum of the hours
    logged in it, which is zero for a month of that range without entry. *)
Theorem monthly_hours_buckets (df : DataFrame) (m : Z) :
  ((exists h, (m, h) ∈ monthly_hours df)
   <-> (exists r1 r2, r1 ∈ df /\ r2 ∈ df
          /\ month_of (Date r1) <= m <= month_of (Date r2)))
  /\ (forall h, (m, h) ∈ monthly_hours df -> h = month_sum df m)
  /\ ((forall r, r ∈ df -> month_of (Date r) <> m) -> month_sum df m = 0%Qc)
  /\ NoDup (map fst (monthly_hours df)).
Proof.
  split; [| split; [| split; [apply month_sum_no_entry |]]]; cycle 2.
  { destruct df as [|r0 df]; [constructor |].
    unfold monthly_hours. rewrite map_map. cbn [fst]. rewrite map_id.
    apply NoDup_seqZ. }
  - destruct df as [|r0 df]; [split; [intros [? H] | intros (? & ? & H & _)]; set_solver |].
    unfold monthly_hours.
    set (months := map (fun r => month_of (Date r)) (r0 :: df)).
    set (first := foldr Z.min (month_of (Date r0)) months).
    set (last := foldr Z.max (month_of (Date r0)) months).
    assert (Hin : forall r, r ∈ r0 :: df -> month_of (Date r) ∈ months).
    { intros r Hr. unfold months. apply list_elem_of_fmap. eauto. }
    assert (Hfirst : exists r, r ∈ r0 :: df /\ month_of (Date r) = first).
    { destruct (foldr_min_elem (month_of (Date r0)) months) as [E | E].
      - exists r0. split; [apply elem_of_cons; by left | done].
      - apply list_elem_of_fmap in E as (r & E & Hr). eauto. }
    assert (Hlast : exists r, r ∈ r0 :: df /\ month_of (Date r) = last).
    { destruct (foldr_max_elem (month_of (Date r0)) months) as [E | E].
      - exists r0. split; [apply elem_of_cons; by left | done].
      - apply list_elem_of_fmap in E as (r & E & Hr). eauto. }
    split.
    + intros [h H]. apply list_elem_of_fmap in H as (m' & [= <- _] & Hm).
      apply elem_of_seqZ in Hm.
      destruct Hfirst as (r1 & Hr1 & E1), Hlast as (r2 & Hr2 & E2).
      exists r1, r2. repeat split; try done; lia.
    + intros (r1 & r2 & Hr1 & Hr2 & Hlo & Hhi).
      exists (month_sum (r0 :: df) m). apply list_elem_of_fmap.
      exists m. split; [done |]. apply elem_of_seqZ.
      pose proof (proj2 (foldr_min_le (month_of (Date r0)) months) _ (Hin _ Hr1)).
      pose proof (proj2 (foldr_max_ge (month_of (Date r0)) months) _ (Hin _ Hr2)).
      fold first in H. fold last in H0. lia.
  - intros h H. destruct df as [|r0 df]; [set_solver |].
    unfold monthly_hours in H.
    apply list_elem_of_fmap in H as (m' & [= <- ->] & _). done.
Qed.

Lemma monthly_hours_buckets_witness :
  (exists h, (24289, h) ∈ monthly_hours jan_mar) /\ month_sum jan_mar 24289 = 0%Qc.
Proof.
  destruct (monthly_hours_buckets jan_mar 24289) as (Hin & _ & Hzero & _).
  split.
  - apply Hin.
    exists (session "Ava" 2024 1 15 "Guitar" (hrs 2 1)),
           (session "Ava" 2024 3 2 "Guitar" (hrs 3 2)).
    split; [apply elem_of_cons; right; apply elem_of_cons; by left |].
    split; [apply elem_of_cons; by left |].
    vm_compute. split; discriminate.
  - apply Hzero. intros r Hr.
    apply elem_of_cons in Hr as [-> | Hr]; [vm_compute; discriminate |].
    apply list_elem_of_singleton in Hr as ->. vm_compute. discriminate.
Defined.

(** ** Empty collections *)

Lemma select_user_no_match (name : string) (df : DataFrame) :
  Forall (fun r => Name r <> Str name) df -> select_user name df = [].
Proof.
  unfold select_user. induction 1 as [|r df Hr _ IH]; simpl; [done |].
  by rewrite bool_decide_eq_false_2.
Qed.

Lemma weekly_hours_no_match (now : Timestamp) (name : string) (df : DataFrame) :
  Forall (fun r => Name r <> Str name) df -> calculate_weekly_hours now df name = 0%Qc.
Proof.
  intros H. rewrite calculate_weekly_hours_filter.
  induction H as [|r df Hr _ IH]; simpl; [done |].
  unfold weekly_mask at 1. by rewrite bool_decide_eq_false_2.
Qed.

(** C6. On the empty collection the hours of the week are 0, the totals per
    skill, per day and per month are empty and the three metrics are zero;
    selecting a user who has no entry gives the empty collection, hence the
    same results, and the hours of the week of such a user are 0 on the
    whole collection too. *)
Theorem aggregations_on_no_entries (now : Timestamp) (name : string) (df : DataFrame) :
  Forall (fun r => Name r <> Str name) df ->
  (calculate_weekly_hours now [] name = 0%Qc
   /\ skill_hours [] = ∅
   /\ daily_activity [] = ∅
   /\ monthly_hours [] = []
   /\ counts [] = (0%Qc, 0%nat, 0%nat))
  /\ select_user name df = []
  /\ calculate_weekly_hours now df name = calculate_weekly_hours now [] name
  /\ skill_hours (select_user name df) = skill_hours []
  /\ daily_activity (select_user name df) = daily_activity []
  /\ monthly_hours (select_user name df) = monthly_hours []
  /\ counts (select_user name df) = counts [].
Proof.
  intros H. rewrite (select_user_no_match _ _ H), (weekly_hours_no_match _ _ _ H).
  repeat split.
Qed.

Lemma aggregations_on_no_entries_witness :
  Forall (fun r : row cell Timestamp => Name r <> Str "Bob") ava_week
  /\ select_user "Bob" ava_week = []
  /\ calculate_weekly_hours (at_time 2024 3 6 12 0) ava_week "Bob" = 0%Qc.
Proof.
  assert (H : Forall (fun r : row cell Timestamp => Name r <> Str "Bob") ava_week).
  { repeat constructor; discriminate. }
  split; [exact H |].
  destruct (aggregations_on_no_entries (at_time 2024 3 6 12 0) "Bob" ava_week H)
    as (_ & Hsel & Hweek & _).
  split; [exact Hsel | exact Hweek].
Defined.

(** ** Validation of a submission *)

Lemma all_required_false (f : Form.t) :
  Form.name f = "" \/ Form.date f = None \/ Form.skill_focus f = ""
  \/ Form.hours f = 0%Qc \/ Form.progress_description f = ""
  \/ Form.commitment f = "" ->
  all_required f = false.
Proof.
  unfold all_required, truthy_str, truthy_float. simpl.
  intros [H | [H | [H | [H | [H | H]]]]]; rewrite H; simpl;
    repeat (reflexivity || rewrite andb_false_r || rewrite andb_false_l).
Qed.

(** C4. When a required field of the form is empty or missing (a name, a
    skill or a description that is the empty string, no date, zero hours,
    no commitment), the handler reports the validation error and does
    nothing else: the backing file, hence its number of entries, and the
    session state are those it was given. *)
Theorem submit_rejects_missing_field (mode : datetime_parsing) (f : Form.t)
    (fs : backing_file) (ss : session_state) :
  Form.name f = "" \/ Form.date f = None \/ Form.skill_focus f = ""
  \/ Form.hours f = 0%Qc \/ Form.progress_description f = ""
  \/ Form.commitment f = "" ->
  submit mode f fs ss = (fs, ss, ValidationError)
  /\ entry_count (fst (fst (submit mode f fs ss))) = entry_count fs.
Proof.
  intros H. unfold submit. rewrite (all_required_false f H). simpl. done.
Qed.

Lemma submit_rejects_missing_field_witness :
  submit PerElement
    (Form.Make "" (Some 19786) "Guitar" (hrs 2 1) "practiced scales" ""
               "Good - Met Goals" "")
    (Csv []) (SessionState false [])
  = (Csv [], SessionState false [], ValidationError).
Proof.
  apply (submit_rejects_missing_field PerElement
           (Form.Make "" (Some 19786) "Guitar" (hrs 2 1) "practiced scales" ""
                      "Good - Met Goals" "")).
  left. reflexivity.
Defined.

(** C10. A submission with exactly zero hours, a value the widget accepts,
    is treated as one with a missing field: the handler reports the
    validation error and the backing file is left as it was. *)
Theorem submit_rejects_zero_hours (mode : datetime_parsing) (f : Form.t)
    (fs : backing_file) (ss : session_state) :
  Form.hours f = 0%Qc ->
  hours_in_range (Form.hours f)
  /\ submit mode f fs ss = (fs, ss, ValidationError).
Proof.
  intros H. split.
  - rewrite H. split; [apply Qcle_refl | discriminate].
  - unfold submit. rewrite (all_required_false f); [done | tauto].
Qed.

Lemma submit_rejects_zero_hours_witness :
  submit PerElement
    (Form.Make "Ava" (Some 19786) "Guitar" 0%Qc "practiced scales" ""
               "Good - Met Goals" "")
    (Csv []) (SessionState false [])
  = (Csv [], SessionState false [], ValidationError).
Proof.
  apply (submit_rejects_zero_hours PerElement
           (Form.Make "Ava" (Some 19786) "Guitar" 0%Qc "practiced scales" ""
                      "Good - Met Goals" "")).
  reflexivity.
Defined.

(** ** Loading *)

(** C9. Loading twice in a row, with no write in between, returns the same
    collection; the second load also leaves the session state as the first
    one left it. [load_data] only reads the file. *)
Theorem load_data_twice (mode : datetime_parsing) (fs : backing_file)
    (ss ss' : session_state) :
  load_data mode fs (snd (load_data mode fs ss)) = load_data mode fs ss
  /\ fst (load_data mode fs ss') = fst (load_data mode fs ss).
Proof.
  unfold load_data.
  destruct (read_csv fs) as [[|r df]|]; try done.
  destruct (to_datetime mode (map Date (r :: df))) as [column|]; try done.
  destruct (sorted _) as [names|]; done.
Qed.

(** ** The known names *)

Lemma unique_elem_of {A} `{EqDecision A} (l : list A) (x : A) : x ∈ unique l <-> x ∈ l.
Proof.
  induction l as [|y l IH]; simpl; [done |].
  rewrite !elem_of_cons, <- IH, list_elem_of_In, filter_In, <- list_elem_of_In.
  rewrite bool_decide_eq_true.
  destruct (decide (x = y)); tauto.
Qed.

Lemma NoDup_List_filter {A} (p : A -> bool) (l : list A) : NoDup l -> NoDup (List.filter p l).
Proof.
  induction 1 as [|x l Hx _ IH]; simpl; [constructor |].
  destruct (p x); [| done].
  constructor; [| done].
  rewrite list_elem_of_In, filter_In, <- list_elem_of_In. tauto.
Qed.

Lemma unique_NoDup {A} `{EqDecision A} (l : list A) : NoDup (unique l).
Proof.
  induction l as [|y l IH]; simpl; constructor.
  - rewrite list_elem_of_In, filter_In, bool_decide_eq_true. tauto.
  - by apply NoDup_List_filter.
Qed.


Lemma mapM_as_str_Some (l : list cell) :
  Forall (fun c => c <> NaN) l -> is_Some (mapM as_str l).
Proof.
  intros H. apply mapM_is_Some_2. eapply Forall_impl; [exact H |].
  intros [|s] Hc; simpl; [done | eauto].
Qed.

Lemma sorted_is_Some (l : list cell) :
  Forall (fun c => c <> NaN) l -> is_Some (sorted l).
Proof.
  intros H. destruct l as [|c1 [|c2 l]]; simpl; [eauto | eauto |].
  destruct (mapM_as_str_Some _ H) as [strs Hs].
  simpl in Hs. rewrite Hs. simpl. eauto.
Qed.





(** ** Append, then load *)










Lemma Forall_unique {A} `{EqDecision A} (P : A -> Prop) (l : list A) :
  Forall P l -> Forall P (unique l).
Proof.
  rewrite !Forall_forall. intros H x Hx. apply H. by apply unique_elem_of.
Qed.







(** ** The scenarios of the specification, evaluated *)

Example ava_week_skill_hours : skill_hours ava_week !! "Guitar" = Some (hrs 7 2).
Proof. vm_compute. reflexivity. Qed.

Example ava_week_counts : counts ava_week = (hrs 7 2, 2%nat, 1%nat).
Proof.
  unfold counts.
  replace (sum_hours ava_week) with (hrs 7 2) by (symmetry; qc_eval).
  reflexivity.
Qed.

(** Entries dated 2024-02-29 and 2024-03-02 fall in different buckets. *)
Example leap_day_and_march_buckets :
  monthly_hours [ session "Ava" 2024 3 2 "Guitar" (hrs 1 1);
                  session "Ava" 2024 2 29 "Guitar" (hrs 2 1) ]
  = [(24289, hrs 2 1); (24290, hrs 1 1)].
Proof. vm_compute. repeat f_equal; apply Qc_is_canon; reflexivity. Qed.

(** With a date parser that infers one format for the whole column, the
    file written by a second append mixes the two layouts of a date and
    no longer loads: the collection comes back empty although the file
    holds two records. *)
Example second_append_with_inferred_format :
  let fs1 := fst (fst (submit InferredFormat ava_monday (Csv []) fresh_session)) in
  let '(fs2, ss2, o) := submit InferredFormat ava_tuesday fs1 fresh_session in
  o = Logged /\ entry_count fs2 = 2%nat /\ fst (load_data InferredFormat fs2 ss2) = [].
Proof. vm_compute. repeat split. Qed.

(** A name that [read_csv] takes for a missing value passes the validation
    and is stored, but comes back as a missing value. *)
Example marker_name_is_loaded_as_missing :
  let f := Form.Make "NA" (Some 19786) "Guitar" (hrs 2 1) "practiced scales" ""
                     "Good - Met Goals" "" in
  let '(fs1, ss1, o) := submit PerElement f (Csv []) fresh_session in
  o = Logged /\ map Name (fst (load_data PerElement fs1 ss1)) = [NaN].
Proof. vm_compute. repeat split. Qed.

(** Next to a stored entry whose name is missing, sorting the names raises:
    the append writes the file and then fails, and the file no longer
    loads. *)
Example append_next_to_missing_name :
  let fs := Csv [Row "NA" (DateOnly 19786) "Guitar" (hrs 2 1) "practiced scales" ""
                     "Good - Met Goals" ""] in
  let '(fs1, ss1, o) := submit PerElement ava_tuesday fs fresh_session in
  o = TypeError /\ entry_count fs1 = 2%nat /\ fst (load_data PerElement fs1 ss1) = [].
Proof. vm_compute. repeat split. Qed.

(** * Further properties of the code *)

(** ** The week window *)

Lemma weekday_week_start (t : Timestamp) : weekday (fst (get_week_range t)) = 0.
Proof.
  unfold weekday at 1. rewrite week_start_day. unfold week_monday, weekday.
  pose proof (Z.div_mod (day_of t + 3) 7).
  replace (day_of t - (day_of t + 3) `mod` 7 + 3)
    with (0 + ((day_of t + 3) `div` 7) * 7) by lia.
  rewrite Z.mod_add by discriminate. reflexivity.
Qed.

Lemma timedelta_nonneg (k : Z) : 0 <= k -> 0 <= timedelta k.
Proof. intros H. unfold timedelta. pose proof NS_PER_DAY_pos. nia. Qed.

Lemma timedelta_le (a b : Z) : a <= b -> timedelta a <= timedelta b.
Proof. intros H. unfold timedelta. pose proof NS_PER_DAY_pos. nia. Qed.

(** X1. The window [get_week_range] returns contains the instant it was
    computed from: the start is the instant moved back by its weekday in
    whole days, and the end is not before the instant. The window of the
    start is the window itself. *)
Theorem week_range_contains_instant (t : Timestamp) :
  fst (get_week_range t) <= t <= snd (get_week_range t)
  /\ t - fst (get_week_range t) = timedelta (weekday t)
  /\ get_week_range (fst (get_week_range t)) = get_week_range t.
Proof.
  pose proof (weekday_week_start t) as Hw.
  pose proof (weekday_range t) as Hr.
  pose proof (timedelta_nonneg (weekday t) (proj1 Hr)).
  pose proof (timedelta_le (weekday t) 6 (proj2 Hr)).
  unfold get_week_range in *. cbn [fst snd] in *. repeat split; try lia.
  rewrite Hw. f_equal; unfold timedelta; lia.
Qed.

(** X2. Two instants have the same window exactly when they fall in the
    same Monday-to-Sunday week at the same time of day; and the window of an
    instant seven days later is the window moved by seven days. *)
Theorem week_range_same_week (t u : Timestamp) :
  (get_week_range t = get_week_range u
   <-> week_monday t = week_monday u /\ time_of_day t = time_of_day u)
  /\ get_week_range (t + timedelta 7)
     = (fst (get_week_range t) + timedelta 7, snd (get_week_range t) + timedelta 7).
Proof.
  split.
  - split.
    + intros H. apply (f_equal fst) in H. rewrite !week_start_split in H.
      pose proof (time_of_day_range t). pose proof (time_of_day_range u).
      unfold midnight in H. pose proof NS_PER_DAY_pos.
      assert (week_monday t = week_monday u) as E by nia.
      split; [exact E |]. rewrite E in H. lia.
    + intros [Hm Ht].
      assert (E : fst (get_week_range t) = fst (get_week_range u))
        by (rewrite !week_start_split; congruence).
      unfold get_week_range in *. cbn [fst] in E. by rewrite E.
  - assert (Hw : weekday (t + timedelta 7) = weekday t).
    { unfold weekday. rewrite day_of_shift.
      replace (day_of t + 7 + 3) with (day_of t + 3 + 1 * 7) by lia.
      apply Z.mod_add. discriminate. }
    unfold get_week_range. cbn [fst snd]. rewrite Hw. f_equal; lia.
Qed.

Lemma week_range_same_week_witness :
  get_week_range (at_time 2024 3 4 9 0) = get_week_range (at_time 2024 3 10 9 0).
Proof.
  apply (week_range_same_week (at_time 2024 3 4 9 0) (at_time 2024 3 10 9 0)).
  split; reflexivity.
Defined.

(** ** The aggregations *)

Lemma sum_hours_nonneg {T D} (l : list (row T D)) :
  Forall (fun r => (0 <= Hours_Practiced r)%Qc) l -> (0 <= sum_hours l)%Qc.
Proof.
  induction 1 as [|r l Hr _ IH]; simpl; [apply Qcle_refl |].
  rewrite <- (Qcplus_0_l 0). by apply Qcplus_le_compat.
Qed.


Lemma Forall_List_filter {A} (P : A -> Prop) (p : A -> bool) (l : list A) :
  Forall P l -> Forall P (List.filter p l).
Proof.
  induction 1 as [|x l Hx _ IH]; simpl; [constructor |].
  destruct (p x); [by constructor | done].
Qed.




Lemma add_hours_lookup `{Countable K} (k k' : K) (h : Qc) (m : gmap K Qc) :
  add_hours k h m !! k'
  = if decide (k = k') then Some (h + default 0%Qc (m !! k'))%Qc else m !! k'.
Proof.
  unfold add_hours. destruct (decide (k = k')) as [-> | Hne].
  - by rewrite lookup_insert_eq.
  - by rewrite lookup_insert_ne.
Qed.

(** The total of a group is the sum over its rows, and a key is present
    exactly when it has a row. *)
Lemma skill_hours_rows (df : DataFrame) (s : string) :
  skill_hours df !! s
  = match List.filter (fun r => bool_decide (Skill_Focus r = Str s)) df with
    | [] => None
    | rows => Some (sum_hours rows)
    end.
Proof.
  induction df as [|r df IH]; [done |].
  cbn [skill_hours foldr List.filter]. fold (skill_hours df).
  destruct (Skill_Focus r) as [|s'] eqn:E.
  - rewrite bool_decide_eq_false_2 by done. exact IH.
  - rewrite add_hours_lookup. destruct (decide (s' = s)) as [-> | Hne].
    + rewrite bool_decide_eq_true_2 by done. rewrite IH.
      by destruct (List.filter _ df).
    + rewrite bool_decide_eq_false_2 by congruence. exact IH.
Qed.

Lemma daily_activity_rows (df : DataFrame) (t : Z) :
  daily_activity df !! t
  = match List.filter (fun r => Date r =? t) df with
    | [] => None
    | rows => Some (sum_hours rows)
    end.
Proof.
  induction df as [|r df IH]; [done |].
  cbn [daily_activity foldr List.filter]. fold (daily_activity df).
  rewrite add_hours_lookup. unfold Timestamp in *.
  destruct (decide (Date r = t)) as [E | Hne];
    destruct (Z.eqb_spec (Date r) t) as [E' | Hne'].
  - rewrite IH. by destruct (List.filter _ df).
  - by destruct Hne'.
  - by destruct Hne.
  - exact IH.
Qed.

Lemma List_filter_nil_iff {A} (p : A -> bool) (l : list A) :
  List.filter p l = [] <-> forall x, x ∈ l -> p x = false.
Proof.
  induction l as [|x l IH]; simpl.
  - split; [intros _ y Hy; by apply not_elem_of_nil in Hy | done].
  - destruct (p x) eqn:E.
    + split; [done |]. intros H. specialize (H x). rewrite E in H.
      discriminate H. apply elem_of_cons. by left.
    + rewrite IH. split.
      * intros H y Hy. apply elem_of_cons in Hy as [-> | Hy]; auto.
      * intros H y Hy. apply H, elem_of_cons. by right.
Qed.

(** X4. The totals per skill are a group-by-sum: a skill that some entry
    names has the sum of the hours of the entries naming it, and a skill
    that no entry names has no total. Entries whose skill is missing belong
    to no group. *)
Theorem skill_hours_lookup (df : DataFrame) (s : string) :
  ((exists r, r ∈ df /\ Skill_Focus r = Str s) ->
   skill_hours df !! s = Some (skill_sum df s))
  /\ ((forall r, r ∈ df -> Skill_Focus r <> Str s) -> skill_hours df !! s = None).
Proof.
  rewrite skill_hours_rows. unfold skill_sum.
  destruct (List.filter _ df) as [|r0 rows] eqn:E.
  - split; [| done]. intros (r & Hr & Hs).
    pose proof (proj1 (List_filter_nil_iff _ _) E r Hr) as Hf. cbv beta in Hf.
    by rewrite bool_decide_eq_true_2 in Hf.
  - split; [done |]. intros H.
    assert (Hin : r0 ∈ List.filter (fun r => bool_decide (Skill_Focus r = Str s)) df)
      by (rewrite E; apply elem_of_cons; by left).
    apply list_elem_of_In, filter_In in Hin as [Hin Hb].
    apply bool_decide_eq_true in Hb. apply list_elem_of_In in Hin.
    by destruct (H r0 Hin).
Qed.

Lemma skill_hours_lookup_witness :
  skill_hours ava_week !! "Guitar" = Some (skill_sum ava_week "Guitar")
  /\ skill_hours ava_week !! "Piano" = None.
Proof.
  split.
  - apply (skill_hours_lookup ava_week "Guitar").
    exists (session "Ava" 2024 3 5 "Guitar" (hrs 3 2)).
    split; [apply elem_of_cons; by left | reflexivity].
  - apply (skill_hours_lookup ava_week "Piano"). intros r Hr.
    apply elem_of_cons in Hr as [-> | Hr]; [discriminate |].
    apply list_elem_of_singleton in Hr as ->. discriminate.
Defined.

(** X5. The totals per date are a group-by-sum over the timestamps: a
    timestamp that some entry carries has the sum of the hours of the
    entries carrying it, any other timestamp has no total; two entries of
    the same day at different times are two groups. *)
Theorem daily_activity_lookup (df : DataFrame) (t : Z) :
  ((exists r, r ∈ df /\ Date r = t) -> daily_activity df !! t = Some (date_sum df t))
  /\ ((forall r, r ∈ df -> Date r <> t) -> daily_activity df !! t = None).
Proof.
  rewrite daily_activity_rows. unfold date_sum, DataFrame, Timestamp in *.
  destruct (List.filter (fun r => Date r =? t) df) as [|r0 rows] eqn:E.
  - split; [| done]. intros (r & Hr & Hs).
    pose proof (proj1 (List_filter_nil_iff _ _) E r Hr) as Hf. cbv beta in Hf.
    apply Z.eqb_neq in Hf. done.
  - split; [done |]. intros H.
    assert (Hin : r0 ∈ List.filter (fun r => Date r =? t) df)
      by (rewrite E; apply elem_of_cons; by left).
    apply list_elem_of_In, filter_In in Hin as [Hin Hb].
    apply Z.eqb_eq in Hb. apply list_elem_of_In in Hin.
    by destruct (H r0 Hin).
Qed.

Lemma daily_activity_lookup_witness :
  daily_activity ava_week !! at_time 2024 3 4 0 0
  = Some (date_sum ava_week (at_time 2024 3 4 0 0))
  /\ daily_activity ava_week !! at_time 2024 3 4 9 0 = None.
Proof.
  split.
  - apply (daily_activity_lookup ava_week (at_time 2024 3 4 0 0)).
    exists (session "Ava" 2024 3 4 "Guitar" (hrs 2 1)).
    split; [apply elem_of_cons; right; apply elem_of_cons; by left | reflexivity].
  - apply (daily_activity_lookup ava_week (at_time 2024 3 4 9 0)). intros r Hr.
    apply elem_of_cons in Hr as [-> | Hr]; [vm_compute; discriminate |].
    apply list_elem_of_singleton in Hr as ->. vm_compute. discriminate.
Defined.

Lemma skill_hours_dom (df : DataFrame) (s : string) :
  s ∈ dom (skill_hours df) <-> Str s ∈ map Skill_Focus df.
Proof.
  rewrite elem_of_dom, skill_hours_rows, list_elem_of_fmap.
  destruct (List.filter _ df) as [|r0 rows] eqn:E.
  - split; [intros [? ?]; done |]. intros (r & Hs & Hr). exfalso.
    pose proof (proj1 (List_filter_nil_iff _ _) E r Hr) as Hf. cbv beta in Hf.
    by rewrite bool_decide_eq_true_2 in Hf.
  - split; [| eauto]. intros _.
    assert (Hin : r0 ∈ List.filter (fun r => bool_decide (Skill_Focus r = Str s)) df)
      by (rewrite E; apply elem_of_cons; by left).
    apply list_elem_of_In, filter_In in Hin as [Hin Hb].
    apply bool_decide_eq_true in Hb. apply list_elem_of_In in Hin. eauto.
Qed.

Lemma unique_length_le {A} `{EqDecision A} (l : list A) : (length (unique l) <= length l)%nat.
Proof.
  induction l as [|x l IH]; simpl; [lia |].
  pose proof (List.filter_length_le (fun y => bool_decide (y <> x)) (unique l)). lia.
Qed.

Lemma filter_eq_length {A} `{EqDecision A} (x : A) (l : list A) :
  NoDup l ->
  length (List.filter (fun y => bool_decide (y = x)) l)
  = if bool_decide (x ∈ l) then 1%nat else 0%nat.
Proof.
  induction 1 as [|y l Hy _ IH]; simpl; [done |].
  destruct (decide (y = x)) as [-> | Hne].
  - rewrite bool_decide_eq_true_2 by done. simpl. rewrite IH.
    rewrite (bool_decide_eq_false_2 (x ∈ l)) by done.
    rewrite bool_decide_eq_true_2; [done | apply elem_of_cons; by left].
  - rewrite bool_decide_eq_false_2 by done. rewrite IH.
    rewrite (bool_decide_ext (x ∈ y :: l) (x ∈ l)); [done |].
    rewrite elem_of_cons. split; [intros [-> | ?]; done | auto].
Qed.

Lemma filter_split_length {A} (p : A -> bool) (l : list A) :
  length l = (length (List.filter p l) + length (List.filter (fun y => negb (p y)) l))%nat.
Proof.
  induction l as [|x l IH]; simpl; [done |]. destruct (p x); simpl; lia.
Qed.

(** The groups of the chart are the distinct skills that are not missing. *)
Lemma skill_groups_length (df : DataFrame) :
  size (skill_hours df)
  = length (List.filter (fun c => negb (bool_decide (c = NaN)))
                        (unique (map Skill_Focus df))).
Proof.
  rewrite <- size_dom. unfold size, set_size. simpl.
  rewrite <- (length_fmap Str). apply Permutation_length.
  apply NoDup_Permutation.
  - assert (Inj (=) (=) Str) by (by intros x y [= ->]).
    apply (NoDup_fmap_2 Str). apply NoDup_elements.
  - apply NoDup_List_filter, unique_NoDup.
  - intros c. rewrite list_elem_of_fmap, list_elem_of_In, filter_In, <- list_elem_of_In.
    rewrite unique_elem_of, negb_true_iff, bool_decide_eq_false. split.
    + intros (s & -> & Hs). apply elem_of_elements, skill_hours_dom in Hs. done.
    + intros [Hc Hn]. destruct c as [|s]; [done |].
      exists s. split; [done |]. by apply elem_of_elements, skill_hours_dom.
Qed.

(** X6. The metric "Skills in Progress" counts the distinct values of the
    skill column, a missing value included, while the chart of the hours per
    skill has one group per skill that is not missing: the number of groups
    is at most the metric, which is at most the number of sessions; the two
    agree when no entry has a missing skill, and differ by one when some
    entry has. *)
Theorem distinct_skills_and_groups (df : DataFrame) :
  (size (skill_hours df) <= snd (counts df) <= length df)%nat
  /\ (Forall (fun r => Skill_Focus r <> NaN) df ->
      snd (counts df) = size (skill_hours df))
  /\ (Exists (fun r => Skill_Focus r = NaN) df ->
      snd (counts df) = S (size (skill_hours df))).
Proof.
  unfold counts. cbn [snd]. rewrite skill_groups_length.
  set (U := unique (map Skill_Focus df)).
  pose proof (filter_split_length (fun c => negb (bool_decide (c = NaN))) U) as Hsplit.
  assert (Hnan : length (List.filter (fun y => negb (negb (bool_decide (y = NaN)))) U)
                 = if bool_decide (NaN ∈ map Skill_Focus df) then 1%nat else 0%nat).
  { erewrite filter_ext by (intros c; apply negb_involutive).
    rewrite (filter_eq_length NaN U (unique_NoDup _)).
    by rewrite (bool_decide_ext (NaN ∈ U) (NaN ∈ map Skill_Focus df))
      by apply unique_elem_of. }
  cbv beta in Hsplit. rewrite Hnan in Hsplit.
  pose proof (unique_length_le (map Skill_Focus df)) as Hle.
  rewrite length_map in Hle. fold U in Hle.
  split; [| split].
  - destruct (bool_decide _); lia.
  - intros Hall. rewrite bool_decide_eq_false_2 in Hsplit; [lia |].
    intros Hin. apply list_elem_of_fmap in Hin as (r & Hr & Hin).
    rewrite Forall_forall in Hall. by destruct (Hall r Hin).
  - intros Hex. rewrite bool_decide_eq_true_2 in Hsplit; [lia |].
    apply Exists_exists in Hex as (r & Hin & Hr).
    apply list_elem_of_fmap. eauto.
Qed.

Lemma distinct_skills_and_groups_witness :
  snd (counts ava_week) = size (skill_hours ava_week).
Proof.
  apply (distinct_skills_and_groups ava_week).
  repeat constructor; discriminate.
Defined.











Lemma sum_over_months_cons (x : Z) (h : Qc) (g : Z -> Qc) (l : list Z) :
  NoDup l ->
  foldr (fun m acc => ((if x =? m then h + g m else g m) + acc)%Qc) 0%Qc l
  = ((if bool_decide (x ∈ l) then h else 0) + foldr (fun m acc => (g m + acc)%Qc) 0%Qc l)%Qc.
Proof.
  induction 1 as [|m l Hm _ IH]; simpl.
  - by rewrite Qcplus_0_l.
  - rewrite IH. destruct (Z.eqb_spec x m) as [-> | Hne].
    + rewrite (bool_decide_eq_false_2 (m ∈ l)) by done.
      rewrite bool_decide_eq_true_2 by (apply elem_of_cons; by left).
      rewrite Qcplus_0_l. by rewrite Qcplus_assoc.
    + rewrite (bool_decide_ext (x ∈ m :: l) (x ∈ l))
        by (rewrite elem_of_cons; split; [intros [? | ?]; done | auto]).
      rewrite !Qcplus_assoc. f_equal. apply Qcplus_comm.
Qed.



(** ** The entry store *)

Lemma to_datetime_mapM (mode : datetime_parsing) (column : list date_text)
    (stamps : list Timestamp) :
  to_datetime mode column = Some stamps -> mapM parse_date column = Some stamps.
Proof.
  unfold to_datetime. destruct mode; [done |].
  destruct column as [|d column]; [done |]. by destruct (forallb _ _).
Qed.

Lemma set_Date_load_row (records : list (row string date_text)) (column : list Timestamp) :
  mapM parse_date (map Date records) = Some column ->
  set_Date (map (map_row read_text id) records) column = map load_row records.
Proof.
  intros H. apply mapM_Some_1 in H. unfold set_Date.
  revert column H. induction records as [|rec records IH]; intros column H.
  - by inversion H.
  - inversion H as [|d t ds ts Hd Hrest]; subst. simpl. f_equal.
    + unfold load_row, map_row. simpl. by rewrite Hd.
    + by apply IH.
Qed.

(** When [load_data] returns rows, they are the records of the file, in
    order, and every date of the file parses. *)
Lemma load_data_rows (mode : datetime_parsing) (fs : backing_file) (ss : session_state) :
  fst (load_data mode fs ss) = []
  \/ exists records,
       fs = Csv records
       /\ Forall (fun record => is_Some (parse_date (Date record))) records
       /\ fst (load_data mode fs ss) = map load_row records.
Proof.
  unfold load_data. destruct fs as [|records]; [by left |]. cbn [read_csv].
  destruct (map (map_row read_text id) records) as [|r df] eqn:E; [by left |].
  destruct (to_datetime mode (map Date (r :: df))) as [column|] eqn:Edt; [| by left].
  destruct (sorted _); [| by left]. right. exists records.
  apply to_datetime_mapM in Edt. rewrite <- E in *.
  assert (Hd : map Date (map (map_row read_text id) records) = map Date records).
  { rewrite map_map. apply map_ext. by intros []. }
  rewrite Hd in Edt. cbn [fst]. rewrite (set_Date_load_row _ _ Edt).
  repeat split.
  assert (Hs : is_Some (mapM parse_date (map Date records))) by eauto.
  apply mapM_is_Some_1 in Hs. apply Forall_forall. intros record Hr.
  apply (proj1 (Forall_forall _ _) Hs (Date record)), list_elem_of_fmap. eauto.
Qed.






(** X11. A file whose dates are all written as a date alone and whose
    names are all present loads completely, with either way of parsing the
    dates: the frame has one row per record, in order. *)
Theorem load_data_clean_file (mode : datetime_parsing)
    (records : list (row string date_text)) (ss : session_state) :
  Forall (fun record => exists day, Date record = DateOnly day) records ->
  Forall (fun record => read_text (Name record) <> NaN) records ->
  fst (load_data mode (Csv records) ss) = map load_row records.
Proof.
  intros Hdates Hnames. unfold load_data. cbn [read_csv].
  destruct (map (map_row read_text id) records) as [|r df] eqn:E.
  { by destruct records. }
  rewrite <- E.
  assert (Hd : map Date (map (map_row read_text id) records) = map Date records).
  { rewrite map_map. apply map_ext. by intros []. }
  assert (Hparse : is_Some (mapM parse_date (map Date records))).
  { apply mapM_is_Some_2, Forall_fmap. eapply Forall_impl; [exact Hdates |].
    intros record [day Hday]. simpl. rewrite Hday. simpl. eauto. }
  destruct Hparse as [column Hparse].
  assert (Hdt : to_datetime mode (map Date records) = Some column).
  { unfold to_datetime. destruct mode; [done |].
    destruct (map Date records) as [|d0 rest] eqn:Er; [done |].
    replace (forallb (same_format d0) rest) with true; [done |].
    symmetry. apply forallb_forall. intros d Hd'.
    assert (Hall : Forall (fun d => exists day, d = DateOnly day) (d0 :: rest)).
    { rewrite <- Er. apply Forall_fmap. exact Hdates. }
    inversion Hall as [|? ? [day0 ->] Hrest]; subst.
    rewrite Forall_forall in Hrest.
    destruct (Hrest d) as [day ->]; [by apply list_elem_of_In | done]. }
  rewrite Hd, Hdt, (set_Date_load_row _ _ Hparse).
  destruct (sorted_is_Some (unique (map Name (map load_row records)))) as [names ->];
    [| done].
  apply Forall_unique, Forall_fmap, Forall_fmap.
  eapply Forall_impl; [exact Hnames |]. by intros [].
Qed.

Lemma load_data_clean_file_witness :
  fst (load_data InferredFormat
         (Csv [Row "Ava" (DateOnly 19786) "Guitar" (hrs 2 1) "practiced scales" ""
                   "Good - Met Goals" ""]) fresh_session)
  = [loaded_entry ava_monday 19786].
Proof.
  rewrite (load_data_clean_file InferredFormat).
  - reflexivity.
  - repeat constructor. by exists 19786.
  - repeat constructor. vm_compute. discriminate.
Defined.



Lemma load_data_length (mode : datetime_parsing) (fs : backing_file) (ss : session_state) :
  fst (load_data mode fs ss) = []
  \/ length (fst (load_data mode fs ss)) = entry_count fs.
Proof.
  destruct (load_data_rows mode fs ss) as [H | (records & -> & _ & H)]; [by left |].
  right. rewrite H. apply length_map.
Qed.

Lemma save_entry_file (mode : datetime_parsing) (e : row cell date_cell)
    (fs : backing_file) (ss : session_state) :
  fst (fst (save_entry mode e fs ss))
  = to_csv (e :: map (map_row id DStamp) (fst (load_data mode fs ss))).
Proof.
  unfold save_entry. destruct (load_data mode fs ss) as [df ss1].
  by destruct (sorted _).
Qed.

(** X13. [save_entry] rewrites the file from what [load_data] returned: the
    new entry comes first, followed by one record per loaded row. So the
    file afterwards holds one record more than before, or, when the file
    did not load, the new entry alone, whatever the file held; and this is
    so also when sorting the names raises afterwards. *)
Theorem save_entry_rewrites_file (mode : datetime_parsing) (e : row cell date_cell)
    (fs : backing_file) (ss : session_state) :
  (exists rest,
     fst (fst (save_entry mode e fs ss))
     = Csv (map_row write_text write_date e :: rest)
     /\ length rest = length (fst (load_data mode fs ss)))
  /\ (entry_count (fst (fst (save_entry mode e fs ss))) = 1%nat
      \/ entry_count (fst (fst (save_entry mode e fs ss))) = S (entry_count fs))
  /\ (fst (load_data mode fs ss) = [] ->
      fst (fst (save_entry mode e fs ss)) = to_csv [e]).
Proof.
  rewrite save_entry_file. unfold to_csv. cbn [map entry_count length].
  split; [| split].
  - eexists. split; [reflexivity |]. by rewrite !length_map.
  - rewrite !length_map.
    destruct (load_data_length mode fs ss) as [-> | ->]; [by left | by right].
  - by intros ->.
Qed.

Lemma save_entry_rewrites_file_witness :
  fst (fst (save_entry InferredFormat (entry_data_of ava_tuesday 19787)
              Unreadable fresh_session))
  = to_csv [entry_data_of ava_tuesday 19787].
Proof.
  apply (save_entry_rewrites_file InferredFormat (entry_data_of ava_tuesday 19787)
           Unreadable fresh_session).
  reflexivity.
Defined.

(** X14. With the parser that infers one format for the column, an append
    to a store that loaded at least one entry writes a file that no longer
    loads: the new date is written as a date alone and the loaded ones with
    their time. The next load returns the empty frame, and the append after
    that leaves a file with a single record. *)
Theorem inferred_format_append_empties_load (e e2 : row cell date_cell) (day : Z)
    (fs : backing_file) (ss ss' ss'' : session_state) :
  Date e = DText (DateOnly day) ->
  fst (load_data InferredFormat fs ss) <> [] ->
  load_data InferredFormat (fst (fst (save_entry InferredFormat e fs ss))) ss'
  = ([], ss')
  /\ entry_count
       (fst (fst (save_entry InferredFormat e2
                    (fst (fst (save_entry InferredFormat e fs ss))) ss'')))
     = 1%nat.
Proof.
  intros Hdate Hloaded.
  assert (Hload : forall s, load_data InferredFormat
                              (fst (fst (save_entry InferredFormat e fs ss))) s
                            = ([], s)).
  { intros s. rewrite save_entry_file.
    destruct (fst (load_data InferredFormat fs ss)) as [|r0 df0]; [done |].
    unfold load_data, to_csv, read_csv. cbn [map]. 
    unfold to_datetime. cbn [map_row Date]. rewrite Hdate. reflexivity. }
  split; [apply Hload |].
  rewrite (save_entry_file InferredFormat e2), Hload. reflexivity.
Qed.

Lemma inferred_format_append_empties_load_witness :
  let fs := Csv [Row "Ava" (DateOnly 19786) "Guitar" (hrs 2 1) "practiced scales" ""
                     "Good - Met Goals" ""] in
  load_data InferredFormat
    (fst (fst (save_entry InferredFormat (entry_data_of ava_tuesday 19787)
                 fs fresh_session))) fresh_session
  = ([], fresh_session).
Proof.
  intros fs.
  apply (inferred_format_append_empties_load (entry_data_of ava_tuesday 19787)
           (entry_data_of ava_tuesday 19787) 19787 fs fresh_session fresh_session
           fresh_session).
  - reflexivity.
  - vm_compute. discriminate.
Defined.

(** ** The names *)







(** ** The form *)

Lemma all_required_cases (f : Form.t) :
  all_required f = true
  \/ (Form.name f = "" \/ Form.date f = None \/ Form.skill_focus f = ""
      \/ Form.hours f = 0%Qc \/ Form.progress_description f = ""
      \/ Form.commitment f = "").
Proof.
  unfold all_required, truthy_str, truthy_float. cbn [forallb id].
  destruct (Form.date f) as [day|] eqn:H2; [| tauto].
  repeat case_bool_decide; cbn [negb andb]; try tauto.
  exfalso. eauto.
Qed.

Lemma save_entry_outcome (mode : datetime_parsing) (e : row cell date_cell)
    (fs : backing_file) (ss : session_state) :
  snd (save_entry mode e fs ss) <> ValidationError.
Proof.
  unfold save_entry. destruct (load_data mode fs ss) as [df ss1].
  by destruct (sorted _).
Qed.

(** X17. The handler reports the validation error exactly when a required
    field is empty or missing: the name, the skill, the description or the
    commitment is the empty string, the date is absent, or the hours are
    zero. Text made of blanks only passes. *)
Theorem submit_validation_iff (mode : datetime_parsing) (f : Form.t)
    (fs : backing_file) (ss : session_state) :
  snd (submit mode f fs ss) = ValidationError
  <-> (Form.name f = "" \/ Form.date f = None \/ Form.skill_focus f = ""
       \/ Form.hours f = 0%Qc \/ Form.progress_description f = ""
       \/ Form.commitment f = "").
Proof.
  split.
  - intros H. destruct (all_required_cases f) as [Hall | ?]; [| done].
    unfold submit in H. rewrite Hall in H. cbn [negb] in H.
    destruct (Form.date f) as [day|]; [| tauto].
    pose proof (save_entry_outcome mode (entry_data_of f day) fs ss) as Ho.
    destruct (save_entry mode (entry_data_of f day) fs ss) as [[fs' ss'] o].
    by destruct o.
  - intros H. unfold submit. by rewrite (all_required_false f H).
Qed.

Lemma submit_validation_iff_witness :
  snd (submit PerElement
         (Form.Make "Ava" (Some 19786) "" (hrs 2 1) "practiced scales" ""
                    "Good - Met Goals" "")
         (Csv []) fresh_session)
  = ValidationError.
Proof.
  apply (submit_validation_iff PerElement
           (Form.Make "Ava" (Some 19786) "" (hrs 2 1) "practiced scales" ""
                      "Good - Met Goals" "")).
  right. right. left. reflexivity.
Defined.

(** X18. A submission that passes the validation is written to the file as
    its first record, with the strings of the form as they are (an empty
    optional field as an empty cell, a marker of a missing value as that
    marker) and the date as a date alone; the file is written even when
    sorting the names raises afterwards. *)
Theorem submit_writes_first_record (mode : datetime_parsing) (f : Form.t) (day : Z)
    (fs : backing_file) (ss : session_state) :
  all_required f = true ->
  Form.date f = Some day ->
  exists rest,
    fst (fst (submit mode f fs ss))
    = Csv (Row (Form.name f) (DateOnly day) (Form.skill_focus f) (Form.hours f)
               (Form.progress_description f) (Form.challenges f)
               (Form.commitment f) (Form.comments f) :: rest).
Proof.
  intros Hall Hdate. unfold submit. rewrite Hall, Hdate. cbn [negb].
  pose proof (save_entry_file mode (entry_data_of f day) fs ss) as Hfile.
  destruct (save_entry mode (entry_data_of f day) fs ss) as [[fs' ss'] o].
  cbn [fst] in Hfile. eexists.
  destruct o; cbn [fst]; rewrite Hfile; reflexivity.
Qed.

Lemma submit_writes_first_record_witness :
  exists rest,
    fst (fst (submit PerElement ava_monday (Csv []) fresh_session))
    = Csv (Row "Ava" (DateOnly 19786) "Guitar" (hrs 2 1) "practiced scales" ""
               "Good - Met Goals" "" :: rest).
Proof.
  apply (submit_writes_first_record PerElement ava_monday 19786 (Csv []) fresh_session);
    reflexivity.
Defined.

(** ** The radar chart *)

Lemma series_index_elem_of (m : gmap string Qc) (s : string) :
  s ∈ series_index m <-> s ∈ dom m.
Proof.
  unfold series_index. rewrite (merge_sort_Permutation String.le (elements (dom m))).
  apply elem_of_elements.
Qed.

Lemma series_index_NoDup (m : gmap string Qc) : NoDup (series_index m).
Proof.
  unfold series_index. rewrite (merge_sort_Permutation String.le (elements (dom m))).
  apply NoDup_elements.
Qed.

Lemma skill_hours_default (df : DataFrame) (s : string) :
  default 0%Qc (skill_hours df !! s) = skill_sum df s.
Proof.
  rewrite skill_hours_rows. unfold skill_sum. by destruct (List.filter _ df).
Qed.

Lemma radar_no_skill (df : DataFrame) :
  series_values (skill_hours df) = [] <-> Forall (fun r => Skill_Focus r = NaN) df.
Proof.
  unfold series_values. split.
  - intros H. apply fmap_nil_inv in H. apply Forall_forall. intros r Hr.
    destruct (Skill_Focus r) as [|s] eqn:E; [done |]. exfalso.
    assert (Hs : s ∈ series_index (skill_hours df)).
    { apply series_index_elem_of, skill_hours_dom, list_elem_of_fmap. eauto. }
    rewrite H in Hs. by apply not_elem_of_nil in Hs.
  - intros H. destruct (series_index (skill_hours df)) as [|s l] eqn:E; [done |].
    exfalso.
    assert (Hs : s ∈ series_index (skill_hours df))
      by (rewrite E; apply elem_of_cons; by left).
    apply series_index_elem_of, skill_hours_dom, list_elem_of_fmap in Hs
      as (r & Hr & Hin).
    rewrite Forall_forall in H. specialize (H r Hin). congruence.
Qed.

Lemma Qc_max_ge (a b : Qc) : (a <= Qc_max a b)%Qc /\ (b <= Qc_max a b)%Qc.
Proof.
  unfold Qc_max. destruct (decide (a < b)%Qc) as [H | H].
  - split; [by apply Qclt_le_weak | apply Qcle_refl].
  - split; [apply Qcle_refl | by apply Qcnot_lt_le].
Qed.

Lemma fold_left_Qc_max_ge (rest : list Qc) (x : Qc) :
  (x <= fold_left Qc_max rest x)%Qc
  /\ Forall (fun v => (v <= fold_left Qc_max rest x)%Qc) rest.
Proof.
  revert x. induction rest as [|y rest IH]; intros x; simpl.
  - split; [apply Qcle_refl | constructor].
  - destruct (IH (Qc_max x y)) as [H1 H2]. destruct (Qc_max_ge x y) as [Hx Hy].
    split; [by eapply Qcle_trans | constructor; [by eapply Qcle_trans | done]].
Qed.

Lemma float_1_2_ge_1 : (1 <= float_1_2)%Qc.
Proof. vm_compute. discriminate. Qed.

(** X19. [create_skill_radar_chart] returns no figure exactly on the empty
    frame, and raises [ValueError] exactly on a frame that is not empty and
    in which every skill is missing (the largest of no total is taken). In
    every other case the figure has one point per skill that is not missing,
    in the sorted order of the skills and without repetition, each at the
    total hours of its skill; when no entry has negative hours every point
    lies within the range of the radial axis. *)
Theorem radar_chart_cases (user_df : DataFrame) :
  (create_skill_radar_chart user_df = ReturnsNone <-> user_df = [])
  /\ (create_skill_radar_chart user_df = RaisesValueError
      <-> user_df <> [] /\ Forall (fun r => Skill_Focus r = NaN) user_df)
  /\ (forall fig, create_skill_radar_chart user_df = Returns fig ->
        Sorted String.le (Radar.theta fig)
        /\ NoDup (Radar.theta fig)
        /\ (forall s, s ∈ Radar.theta fig <-> Str s ∈ map Skill_Focus user_df)
        /\ Radar.r fig = map (skill_sum user_df) (Radar.theta fig)
        /\ (Forall (fun r => (0 <= Hours_Practiced r)%Qc) user_df ->
            Forall (fun v => (fst (Radar.radialaxis_range fig) <= v)%Qc
                             /\ (v <= snd (Radar.radialaxis_range fig))%Qc)
                   (Radar.r fig))).
Proof.
  destruct user_df as [|r0 df].
  { repeat split; try done. by intros [? _]. }
  set (user_df := r0 :: df). unfold create_skill_radar_chart. fold user_df.
  cbv beta iota zeta.
  pose proof (radar_no_skill user_df) as Hnone.
  assert (Hvalues : series_values (skill_hours user_df)
                    = map (skill_sum user_df) (series_index (skill_hours user_df))).
  { unfold series_values. apply map_ext. intros s. apply skill_hours_default. }
  pose proof (fun s => skill_hours_dom user_df s) as Hdom.
  remember (skill_hours user_df) as m eqn:Hm. clear Hm.
  destruct (series_values m) as [|x rest] eqn:E; cbn [py_max].
  - split; [done |]. split; [| done]. split; [| done]. intros _.
    split; [done | by apply Hnone].
  - split; [done |]. split.
    { split; [done |]. intros [_ H]. by apply Hnone in H. }
    intros fig [= <-]. cbn [Radar.theta Radar.r Radar.radialaxis_range fst snd].
    split; [apply Sorted_merge_sort, _ |].
    split; [apply series_index_NoDup |].
    split; [intros s; etrans; [apply series_index_elem_of | apply Hdom] |].
    split; [done |]. intros Hnonneg.
    assert (Hpos : Forall (fun v => (0 <= v)%Qc) (x :: rest)).
    { rewrite Hvalues. apply Forall_fmap, Forall_forall. intros s _.
      by apply sum_hours_nonneg, Forall_List_filter. }
    destruct (fold_left_Qc_max_ge rest x) as [Hx Hrest].
    set (largest := fold_left Qc_max rest x) in *.
    assert (Hl : (0 <= largest)%Qc).
    { eapply Qcle_trans; [| exact Hx]. by inversion Hpos. }
    assert (Hup : (largest <= largest * float_1_2)%Qc).
    { rewrite <- (Qcmult_1_r largest) at 1. rewrite !(Qcmult_comm largest).
      apply Qcmult_le_compat_r; [apply float_1_2_ge_1 | done]. }
    assert (Hall : Forall (fun v => (v <= largest)%Qc) (x :: rest))
      by (by constructor).
    apply Forall_forall. intros v Hv. split.
    + by apply (proj1 (Forall_forall _ _) Hpos).
    + eapply Qcle_trans; [| exact Hup]. by apply (proj1 (Forall_forall _ _) Hall).
Qed.

Lemma radar_chart_cases_witness :
  create_skill_radar_chart
    [Row (Str "Ava") (at_time 2024 3 4 0 0) NaN (hrs 2 1) (Str "practiced") NaN
         (Str "Good - Met Goals") NaN]
  = RaisesValueError.
Proof.
  apply radar_chart_cases. split; [discriminate | repeat constructor].
Defined.

(** ** A run of the script *)







(** ** The activity heatmap *)

Lemma pivot_rows (L : list (Z * Qc)) (k : Z * string) :
  foldr (fun p m => add_hours (iso_week (fst p), day_name (fst p)) (snd p) m) ∅ L !! k
  = match List.filter
            (fun p => bool_decide ((iso_week (fst p), day_name (fst p)) = k)) L with
    | [] => None
    | p :: l => Some (series_total (p :: l))
    end.
Proof.
  induction L as [|p L IH]; [done |].
  cbn [foldr List.filter]. rewrite add_hours_lookup.
  case_decide; case_bool_decide; try done.
  rewrite IH.
  match goal with |- context [List.filter ?f L] => by destruct (List.filter f L) end.
Qed.

Lemma daily_activity_list (df : DataFrame) (t : Z) (v : Qc) :
  (t, v) ∈ map_to_list (daily_activity df)
  <-> v = date_sum df t /\ exists r, r ∈ df /\ Date r = t.
Proof.
  rewrite elem_of_map_to_list, daily_activity_rows. unfold date_sum.
  unfold DataFrame, Timestamp in *.
  destruct (List.filter (fun r => Date r =? t) df) as [|r0 rows] eqn:E.
  - split; [done |]. intros (_ & r & Hr & Hd). exfalso.
    pose proof (proj1 (List_filter_nil_iff _ _) E r Hr) as Hf. cbv beta in Hf.
    apply Z.eqb_neq in Hf. done.
  - assert (Hin : r0 ∈ List.filter (fun r => Date r =? t) df)
      by (rewrite E; apply elem_of_cons; by left).
    apply list_elem_of_In, filter_In in Hin as [Hin Hb].
    apply Z.eqb_eq in Hb. apply list_elem_of_In in Hin.
    split; [intros [= <-] | intros [-> _]]; eauto.
Qed.

Lemma NoDup_fst_filter {A B} (f : A * B -> bool) (l : list (A * B)) :
  NoDup (map fst l) -> NoDup (map fst (List.filter f l)).
Proof.
  induction l as [|p l IH]; simpl; [done |]. intros H.
  apply NoDup_cons in H as [Hp Hl]. destruct (f p); simpl; [| auto].
  apply NoDup_cons. split; [| auto]. intros Hin. apply Hp.
  apply list_elem_of_fmap in Hin as (q & Hq & Hin).
  apply list_elem_of_In, filter_In in Hin as [Hin _].
  apply list_elem_of_fmap. exists q. split; [done | by apply list_elem_of_In].
Qed.

Lemma series_total_dates (df : DataFrame) (l : list (Z * Qc)) :
  Forall (fun p => snd p = date_sum df (fst p)) l ->
  series_total l = foldr (fun t acc => (date_sum df t + acc)%Qc) 0%Qc (map fst l).
Proof.
  induction 1 as [|[t v] l Hp _ IH]; simpl in *; [done |]. by rewrite Hp, IH.
Qed.

Lemma sum_over_dates (df : DataFrame) (P : Z -> bool) (T : list Z) :
  NoDup T ->
  (forall t, t ∈ T -> P t = true) ->
  (forall r, r ∈ df -> P (Date r) = true -> Date r ∈ T) ->
  foldr (fun t acc => (date_sum df t + acc)%Qc) 0%Qc T
  = sum_hours (List.filter (fun r => P (Date r)) df).
Proof.
  intros HT HP. induction df as [|r df IH]; intros Hin.
  - unfold date_sum. simpl. clear. induction T as [|t T IH]; simpl; [done |].
    by rewrite IH, Qcplus_0_l.
  - transitivity
      (foldr (fun t acc =>
                ((if Date r =? t then Hours_Practiced r + date_sum df t
                  else date_sum df t) + acc)%Qc) 0%Qc T).
    { apply foldr_ext; [| done | done]. intros t acc. f_equal.
      unfold date_sum. simpl. unfold Timestamp in *. by destruct (Date r =? t). }
    rewrite (sum_over_months_cons _ _ _ _ HT).
    assert (IH' := IH (fun r' Hr' => Hin r' (proj2 (elem_of_cons _ _ _) (or_intror Hr')))).
    etransitivity; [apply (f_equal (Qcplus _)); exact IH' |].
    simpl. unfold Timestamp in *. destruct (P (Date r)) eqn:E.
    + rewrite bool_decide_eq_true_2; [done |].
      apply Hin; [apply elem_of_cons; by left | done].
    + rewrite bool_decide_eq_false_2; [by rewrite Qcplus_0_l |].
      intros Hr. apply HP in Hr. congruence.
Qed.

(** X22. A cell of the heatmap, at a week number and a day name, holds
    the total hours of all the entries whose date has that ISO week number
    and falls on that day of the week, whatever their year; a pair that no
    entry has gets no cell. *)
Theorem heatmap_cell (df : DataFrame) (week : Z) (name : string) :
  ((exists r, r ∈ df /\ iso_week (Date r) = week /\ day_name (Date r) = name) ->
   heatmap_data df !! (week, name) = Some (cell_sum df week name))
  /\ ((forall r, r ∈ df -> ~ (iso_week (Date r) = week /\ day_name (Date r) = name)) ->
      heatmap_data df !! (week, name) = None).
Proof.
  unfold heatmap_data. rewrite pivot_rows.
  set (P := fun t : Z => bool_decide ((iso_week t, day_name t) = (week, name))).
  set (L := map_to_list (daily_activity df)).
  change (List.filter _ L) with (List.filter (fun p : Z * Qc => P (fst p)) L).
  assert (HF : forall p, p ∈ List.filter (fun p : Z * Qc => P (fst p)) L
                         <-> p ∈ L /\ P (fst p) = true).
  { intros p. by rewrite list_elem_of_In, filter_In, <- list_elem_of_In. }
  assert (Hrow : forall r, r ∈ df -> P (Date r) = true ->
                   (Date r, date_sum df (Date r))
                   ∈ List.filter (fun p : Z * Qc => P (fst p)) L).
  { intros r Hr HP. apply HF. split; [| done].
    apply daily_activity_list. split; [done | eauto]. }
  destruct (List.filter (fun p : Z * Qc => P (fst p)) L) as [|p0 l] eqn:E.
  - split; [| done]. intros (r & Hr & Hw & Hn). exfalso.
    eapply not_elem_of_nil, (Hrow r Hr). unfold P.
    apply bool_decide_eq_true_2. by rewrite <- Hw, <- Hn.
  - split.
    + intros _. f_equal. unfold Timestamp in *. rewrite <- E.
      rewrite (series_total_dates df).
      * unfold cell_sum. apply (sum_over_dates df P).
        -- apply NoDup_fst_filter, NoDup_fst_map_to_list.
        -- intros t Ht. apply list_elem_of_fmap in Ht as (p & -> & Hp).
           rewrite E in Hp. by apply HF in Hp as [_ Hp].
        -- intros r Hr HP. rewrite E. apply list_elem_of_fmap.
           exists (Date r, date_sum df (Date r)). split; [done | by apply Hrow].
      * apply Forall_forall. intros [t v] Hp. rewrite E in Hp.
        apply HF in Hp as [Hp _].
        by apply daily_activity_list in Hp as [-> _].
    + intros Hnone. exfalso.
      assert (Hp : p0 ∈ p0 :: l) by (apply elem_of_cons; by left).
      apply HF in Hp as [Hp HP]. destruct p0 as [t v].
      apply daily_activity_list in Hp as (_ & r & Hr & <-).
      apply (Hnone r Hr). unfold P in HP. apply bool_decide_eq_true in HP.
      by injection HP.
Qed.

Lemma heatmap_cell_witness :
  heatmap_data ava_week !! (10, "Monday") = Some (cell_sum ava_week 10 "Monday")
  /\ heatmap_data ava_week !! (11, "Monday") = None.
Proof.
  split.
  - apply (heatmap_cell ava_week 10 "Monday").
    exists (session "Ava" 2024 3 4 "Guitar" (hrs 2 1)).
    split; [apply elem_of_cons; right; apply elem_of_cons; by left |].
    split; vm_compute; reflexivity.
  - apply (heatmap_cell ava_week 11 "Monday"). intros r Hr [Hw _].
    apply elem_of_cons in Hr as [-> | Hr]; [vm_compute in Hw; discriminate |].
    apply list_elem_of_singleton in Hr as ->. vm_compute in Hw. discriminate.
Defined.

Lemma heatmap_data_dom (df : DataFrame) (k : Z * string) :
  k ∈ dom (heatmap_data df)
  <-> exists r, r ∈ df /\ (iso_week (Date r), day_name (Date r)) = k.
Proof.
  rewrite elem_of_dom. unfold heatmap_data. rewrite pivot_rows.
  set (P := fun t : Z => bool_decide ((iso_week t, day_name t) = k)).
  set (L := map_to_list (daily_activity df)).
  change (List.filter _ L) with (List.filter (fun p : Z * Qc => P (fst p)) L).
  destruct (List.filter (fun p : Z * Qc => P (fst p)) L) as [|[t v] l] eqn:E.
  - split; [by intros [? ?] |]. intros (r & Hr & Hk). exfalso.
    assert (Hin : (Date r, date_sum df (Date r)) ∈ L)
      by (apply daily_activity_list; eauto).
    pose proof (proj1 (List_filter_nil_iff _ _) E _ Hin) as Hf. cbv beta in Hf.
    unfold P in Hf. by rewrite bool_decide_eq_true_2 in Hf.
  - split; [| eauto]. intros _.
    assert (Hin : (t, v) ∈ List.filter (fun p : Z * Qc => P (fst p)) L)
      by (rewrite E; apply elem_of_cons; by left).
    apply list_elem_of_In, filter_In in Hin as [Hin HP].
    apply list_elem_of_In, daily_activity_list in Hin as (_ & r & Hr & <-).
    exists r. split; [done |]. by apply bool_decide_eq_true in HP.
Qed.

Lemma StronglySorted_lookup_lt {A} (R : relation A) (l : list A) (i j : nat) (a b : A) :
  StronglySorted R l -> l !! i = Some a -> l !! j = Some b -> (i < j)%nat -> R a b.
Proof.
  intros H. revert i j. induction H as [|x l _ IH Hx]; intros i j Hi Hj Hlt.
  - done.
  - destruct j as [|j]; [lia |]. destruct i as [|i]; simpl in *.
    + injection Hi as <-. rewrite Forall_forall in Hx.
      by eapply Hx, list_elem_of_lookup_2.
    + apply (IH i j); [done | done | lia].
Qed.

(** X23. [create_activity_heatmap] returns no figure exactly on the empty
    frame. The columns of a figure are the day names that occur, without
    repetition and in alphabetical order, so that Friday comes before Monday
    whenever both occur; its rows are the ISO week numbers that occur, in
    ascending order and without repetition, the year playing no part; and
    the matrix has one row per week and one cell per column. *)
Theorem heatmap_axes (df : DataFrame) :
  (create_activity_heatmap df = None <-> df = [])
  /\ forall fig, create_activity_heatmap df = Some fig ->
       Sorted String.le (Heatmap.x fig) /\ NoDup (Heatmap.x fig)
       /\ (forall n, n ∈ Heatmap.x fig <-> exists r, r ∈ df /\ day_name (Date r) = n)
       /\ (forall i j, Heatmap.x fig !! i = Some "Monday" ->
                       Heatmap.x fig !! j = Some "Friday" -> (j < i)%nat)
       /\ Sorted Z.le (Heatmap.y fig) /\ NoDup (Heatmap.y fig)
       /\ (forall w, w ∈ Heatmap.y fig <-> exists r, r ∈ df /\ iso_week (Date r) = w)
       /\ length (Heatmap.z fig) = length (Heatmap.y fig)
       /\ Forall (fun cells => length cells = length (Heatmap.x fig)) (Heatmap.z fig).
Proof.
  split; [by destruct df |]. intros fig Hfig.
  pose proof (heatmap_data_dom df) as Hdom.
  assert (E : fig = Heatmap.Figure
                (merge_sort String.le
                   (unique (map snd (elements (dom (heatmap_data df))))))
                (merge_sort Z.le
                   (unique (map fst (elements (dom (heatmap_data df))))))
                (map (fun week =>
                        map (fun name => heatmap_data df !! (week, name))
                            (merge_sort String.le
                               (unique (map snd (elements (dom (heatmap_data df)))))))
                     (merge_sort Z.le
                        (unique (map fst (elements (dom (heatmap_data df)))))))).
  { destruct df; [done |]. unfold create_activity_heatmap in Hfig.
    by injection Hfig as <-. }
  clear Hfig. remember (heatmap_data df) as data eqn:Hdata. clear Hdata.
  subst fig. cbn [Heatmap.x Heatmap.y Heatmap.z].
  set (keys := elements (dom data)).
  assert (Hkeys : forall k, k ∈ keys
                    <-> exists r, r ∈ df /\ (iso_week (Date r), day_name (Date r)) = k).
  { intros k. unfold keys. rewrite elem_of_elements. apply Hdom. }
  assert (Hx : forall n, n ∈ merge_sort String.le (unique (map snd keys))
                 <-> exists r, r ∈ df /\ day_name (Date r) = n).
  { intros n. rewrite merge_sort_Permutation, unique_elem_of, list_elem_of_fmap.
    split.
    - intros (k & -> & Hk). apply Hkeys in Hk as (r & Hr & <-). eauto.
    - intros (r & Hr & <-). exists (iso_week (Date r), day_name (Date r)).
      split; [done |]. apply Hkeys. eauto. }
  assert (Hy : forall w, w ∈ merge_sort Z.le (unique (map fst keys))
                 <-> exists r, r ∈ df /\ iso_week (Date r) = w).
  { intros w. rewrite merge_sort_Permutation, unique_elem_of, list_elem_of_fmap.
    split.
    - intros (k & -> & Hk). apply Hkeys in Hk as (r & Hr & <-). eauto.
    - intros (r & Hr & <-). exists (iso_week (Date r), day_name (Date r)).
      split; [done |]. apply Hkeys. eauto. }
  split; [apply Sorted_merge_sort, _ |].
  split; [rewrite merge_sort_Permutation; apply unique_NoDup |].
  split; [exact Hx |].
  split.
  { intros i j Hi Hj. destruct (decide (j < i)%nat) as [? | Hge]; [done |]. exfalso.
    assert (i <> j) by (intros ->; congruence).
    assert (Hs : StronglySorted String.le
                   (merge_sort String.le (unique (map snd keys))))
      by (apply StronglySorted_merge_sort; apply _).
    pose proof (StronglySorted_lookup_lt _ _ i j _ _ Hs Hi Hj ltac:(lia)) as Hle.
    vm_compute in Hle. done. }
  split; [apply Sorted_merge_sort, _ |].
  split; [rewrite merge_sort_Permutation; apply unique_NoDup |].
  split; [exact Hy |].
  split; [apply length_map |].
  apply Forall_fmap, Forall_forall. intros w _. apply length_map.
Qed.

Lemma heatmap_axes_witness :
  exists fig, create_activity_heatmap ava_week = Some fig /\ NoDup (Heatmap.x fig).
Proof.
  destruct (create_activity_heatmap ava_week) as [fig|] eqn:E;
    [| vm_compute in E; discriminate E].
  exists fig. split; [reflexivity |].
  destruct (proj2 (heatmap_axes ava_week) fig E) as (_ & H & _). exact H.
Defined.
